(** * TrendingPosts: the polling/fetch/render lifecycle of the trending-posts widget

    The repository holds two revisions of the React component
    [TrendingPosts]:

    - [frontend/src/components/TrendingPosts.js], embedded in [Module Frontend];
    - the revision kept in [unnamed/part_000], embedded in [Module Part000].

    Both are embedded the same way.  JavaScript values are an inductive type
    [value]; the calls a function makes to its environment (the [useState]
    setters, [axios.get], [console.error], the timer functions) are recorded
    as a list of [action]s; the asynchronous function [fetchTrends] is a
    resumption ([async]): the calls made up to its single [await], and the
    continuation run when the awaited request settles.  The component itself
    is a transition system over [event]s (timer tick, settlement of a pending
    request, unmount).

    Three things React does are part of the model: it batches the setter
    calls of one event and renders once after them; it throws when an
    element has a plain object among its children, and unmounts the tree
    when a render throws (there is no error boundary); it ignores a setter
    called on a component that is unmounted. *)

From Stdlib Require Import String Ascii List Bool ZArith QArith Lia.
From Stdlib Require Import DecimalString.
Import ListNotations.

Local Close Scope Q_scope.
Local Open Scope string_scope.
Local Open Scope list_scope.
Local Set Warnings "-register-all".

(** ** JavaScript values *)

(** A JavaScript number: the exact rational value of a finite double, or one
    of the three non-finite doubles. *)
Inductive number : Type :=
| Finite (q : Q)
| PosInfinity
| NegInfinity
| NaN.

(** The values that reach the component: parsed JSON, plus [undefined]. *)
Inductive value : Type :=
| VUndefined
| VNull
| VBool (b : bool)
| VNum (n : number)
| VStr (s : string)
| VArr (elems : list value)
| VObj (fields : list (string * value)).

(** A [Date] object, as its time value in milliseconds. *)
Definition Date : Type := Z.

(** ToBoolean. *)
Definition truthy (v : value) : bool :=
  match v with
  | VUndefined | VNull => false
  | VBool b => b
  | VNum (Finite q) => negb (Qnum q =? 0)%Z
  | VNum NaN => false
  | VNum _ => true
  | VStr EmptyString => false
  | VStr _ => true
  | VArr _ | VObj _ => true
  end.

(** [a || b]. *)
Definition or_else (a b : value) : value := if truthy a then a else b.

(** [a ?? b]. *)
Definition nullish (v : value) : bool :=
  match v with VUndefined | VNull => true | _ => false end.

(** Own property of an object literal, [undefined] when missing. *)
Fixpoint lookup (k : string) (fields : list (string * value)) : value :=
  match fields with
  | [] => VUndefined
  | (k', v) :: rest => if String.eqb k k' then v else lookup k rest
  end.

(** [v.k] for a data property name [k] (one that no prototype defines, such as
    [error], [sentiment], [text], [score]); [None] is the TypeError raised on
    [null] and [undefined]. *)
Definition member (v : value) (k : string) : option value :=
  match v with
  | VUndefined | VNull => None
  | VObj fields => Some (lookup k fields)
  | _ => Some VUndefined
  end.

(** [v?.k]. *)
Definition opt_member (v : value) (k : string) : value :=
  match member v k with
  | Some x => x
  | None => VUndefined
  end.

(** [Array.isArray]. *)
Definition isArray (v : value) : bool :=
  match v with VArr _ => true | _ => false end.

(** ** Exceptions and settled requests *)

(** What the [catch] clause receives: an [Error] made by the component
    ([response] undefined) or the error axios rejects with, whose [response],
    when the server answered, carries the parsed body [data]. *)
Record exn : Type := mkExn {
  message : string;
  response : option value
}.

(** [new Error(msg)]. *)
Definition Error (msg : string) : exn := mkExn msg None.

(** [err.response?.data?.error]. *)
Definition response_data_error (err : exn) : value :=
  match response err with
  | None => VUndefined
  | Some data => opt_member data "error"
  end.

(** How the promise returned by [axios.get] settles; [Fulfilled data] carries
    [response.data]. *)
Inductive settled : Type :=
| Fulfilled (data : value)
| Rejected (err : exn).

(** ** Calls to the environment and the hook state *)

Inductive action : Type :=
| setTrends (v : value)
| setIsLoading (b : bool)
| setError (v : value)
| setLastUpdated (d : Date)
| axios_get (url : string)
| console_error (label : string) (err : exn)
| setInterval (ms : Z)
| clearInterval.

(** The four [useState] cells. *)
Record state : Type := mkState {
  trends : value;
  isLoading : bool;
  error : value;
  lastUpdated : option Date
}.

(** [useState([])], [useState(true)], [useState('')], [useState(null)]. *)
Definition initial : state :=
  mkState (VArr []) true (VStr EmptyString) None.

(** The effect of one call on the cells. *)
Definition apply (s : state) (a : action) : state :=
  match a with
  | setTrends v => mkState v (isLoading s) (error s) (lastUpdated s)
  | setIsLoading b => mkState (trends s) b (error s) (lastUpdated s)
  | setError v => mkState (trends s) (isLoading s) v (lastUpdated s)
  | setLastUpdated d => mkState (trends s) (isLoading s) (error s) (Some d)
  | axios_get _ | console_error _ _ | setInterval _ | clearInterval => s
  end.

Definition run (s : state) (t : list action) : state := fold_left apply t s.

Definition is_state_update (a : action) : bool :=
  match a with
  | setTrends _ | setIsLoading _ | setError _ | setLastUpdated _ => true
  | _ => false
  end.

Definition is_request (a : action) : bool :=
  match a with axios_get _ => true | _ => false end.

(** An [async] function with a single [await axios.get(url)]: either it ran to
    completion without suspending, or it made the calls [before], issued the
    request and will run [resume] when the request settles ([resume] is given
    the settlement and the clock value that [new Date()] reads then). *)
Inductive async : Type :=
| Return (calls : list action)
| Await (before : list action) (url : string)
        (resume : settled -> Date -> list action).

(** The calls made synchronously by the invocation. *)
Definition started (p : async) : list action :=
  match p with
  | Return calls => calls
  | Await before url _ => before ++ [axios_get url]
  end.

Definition continuation (p : async) : option (settled -> Date -> list action) :=
  match p with
  | Return _ => None
  | Await _ _ k => Some k
  end.

(** All the calls of one cycle that runs without interleaving, the request
    settling as [net] says. *)
Definition cycle (p : async) (net : settled) (now : Date) : list action :=
  match p with
  | Return calls => calls
  | Await before url k => before ++ [axios_get url] ++ k net now
  end.

(** ** The mounted component as a transition system *)

(** What can happen to a mounted component: the interval timer fires, the
    [i]-th pending request settles (with the clock reading [now]), or React
    unmounts the component. *)
Inductive event : Type :=
| Tick
| Settle (i : nat) (r : settled) (now : Date)
| Unmount.

(** [hooks] hold the arguments of the latest setter calls: they are the state
    of the component while it is [mounted]; once it is unmounted React holds
    no state for it and ignores the setter calls (see [applied]), and [hooks]
    only keep a record of them.  [timer] is the callback registered with
    [setInterval], when the interval is active; [pending] are the suspended
    [fetchTrends] invocations. *)
Record component : Type := mkComponent {
  hooks : state;
  mounted : bool;
  timer : option async;
  pending : list (settled -> Date -> list action)
}.

Definition opt_list {A : Type} (o : option A) : list A :=
  match o with Some a => [a] | None => [] end.

Fixpoint remove_nth {A : Type} (i : nat) (l : list A) : list A :=
  match l, i with
  | [], _ => []
  | _ :: rest, O => rest
  | x :: rest, S j => x :: remove_nth j rest
  end.

(** Calling the asynchronous function [p]: its synchronous part runs, and it
    joins the pending invocations if it suspended. *)
Definition invoke (p : async) (c : component) : component * list action :=
  (mkComponent (run (hooks c) (started p)) (mounted c) (timer c)
               (pending c ++ opt_list (continuation p)),
   started p).

(** The [i]-th pending invocation is resumed with the settlement [r]. *)
Definition settle (i : nat) (r : settled) (now : Date) (c : component)
  : component * list action :=
  match nth_error (pending c) i with
  | Some k =>
      (mkComponent (run (hooks c) (k r now)) (mounted c) (timer c)
                   (remove_nth i (pending c)),
       k r now)
  | None => (c, [])
  end.

(** The effect cleanup [() => clearInterval(intervalId)], run at unmount. *)
Definition unmount (c : component) : component * list action :=
  if mounted c
  then (mkComponent (hooks c) false None (pending c), [clearInterval])
  else (c, []).

(** How a fetch cycle ended: with the items and the time of a success, or
    with the exception its [catch] clause received. *)
Inductive outcome : Type :=
| Succeeded (data : value) (now : Date)
| Failed (err : exn).

(** The payload and time of the most recent success in a history of cycle
    outcomes (oldest first). *)
Fixpoint latest (h : list outcome) : option (value * Date) :=
  match h with
  | [] => None
  | o :: rest =>
      match latest rest with
      | Some x => Some x
      | None =>
          match o with
          | Succeeded data now => Some (data, now)
          | Failed _ => None
          end
      end
  end.

(** ** Rendered output *)

(** The React elements a render returns, without their [style], [className]
    and [key] attributes: literal JSX text, an embedded expression
    [{v}], or an element with its children (an array of elements, as
    [Array.prototype.map] returns, is spliced in place). *)
Inductive element : Type :=
| Text (s : string)
| Expr (v : value)
| Elem (tag : string) (children : list element).

(** The [<li>] elements of a rendered tree, in document order. *)
Fixpoint list_items (e : element) : list element :=
  match e with
  | Text _ | Expr _ => []
  | Elem tag children =>
      if String.eqb tag "li" then [e] else flat_map list_items children
  end.

(** The strings a rendered tree displays: its literal text and its string
    expressions, in document order. *)
Fixpoint displayed (e : element) : list string :=
  match e with
  | Text s => [s]
  | Expr (VStr s) => [s]
  | Expr _ => []
  | Elem _ children => flat_map displayed children
  end.

(** A value React accepts as a child: text for a string or a number, nothing
    for a boolean, [null] or [undefined], the children of an array; a plain
    object is refused ("Objects are not valid as a React child"). *)
Fixpoint valid_child (v : value) : bool :=
  match v with
  | VObj _ => false
  | VArr elems => forallb valid_child elems
  | _ => true
  end.

(** An element tree React can render: every embedded expression is a valid
    child. *)
Fixpoint renderable (e : element) : bool :=
  match e with
  | Text _ => true
  | Expr v => valid_child v
  | Elem _ children => forallb renderable children
  end.

(** [f] applied to each element in turn; [None] as soon as a call throws. *)
Fixpoint map_or_throw {A B : Type} (f : A -> option B) (l : list A)
  : option (list B) :=
  match l with
  | [] => Some []
  | x :: rest =>
      match f x with
      | None => None
      | Some y =>
          match map_or_throw f rest with
          | None => None
          | Some ys => Some (y :: ys)
          end
      end
  end.



(** ** [Number.prototype.toFixed] *)

Definition zeros (n : nat) : string :=
  string_of_list_ascii (repeat "0"%char n).

(** The decimal digits of a natural number, ["0"] for zero. *)
Definition digits (n : Z) : string :=
  NilZero.string_of_uint (N.to_uint (Z.to_N n)).

Section ToFixed.

(** [Number::toString(x, 10)], which [toFixed] falls back on for the values
    it does not format itself. *)
Variable Number_toString : number -> string.

(** [x.toFixed(f)] as ECMA-262 defines it, for [0 <= f <= 100]: the integer
    [n] that makes [n / 10^f] closest to [|x|] (the larger one on a tie),
    written with [f] digits after the point. *)
Definition toFixed (x : number) (f : nat) : string :=
  match x with
  | Finite q =>
      let s := if (Qnum q <? 0)%Z then "-" else EmptyString in
      let num := Z.abs (Qnum q) in
      let den := Zpos (Qden q) in
      if (10 ^ 21 * den <=? num)%Z
      then (s ++ Number_toString (Finite (Qmake num (Qden q))))%string
      else
        let n := ((2 * num * 10 ^ Z.of_nat f + den) / (2 * den))%Z in
        let m := digits n in
        match f with
        | O => (s ++ m)%string
        | _ =>
            let k := String.length m in
            let m := if (k <=? f)%nat then (zeros (f + 1 - k) ++ m)%string else m in
            let k := if (k <=? f)%nat then (f + 1)%nat else k in
            (s ++ substring 0 (k - f) m ++ "." ++ substring (k - f) f m)%string
        end
  | _ => Number_toString x
  end.

End ToFixed.

(** ** The revision in [unnamed/part_000] *)

Module Part000.

(** [catch (err) { console.error(...); setError(err.response?.data?.error ||
    err.message || 'Could not load trends.'); }] *)
Definition error_text (err : exn) : value :=
  or_else (or_else (response_data_error err) (VStr (message err)))
          (VStr "Could not load trends.").

Definition catch_block (err : exn) : list action :=
  [console_error "Error fetching trends:" err; setError (error_text err)].

(** [finally { setIsLoading(false); }] *)
Definition finally_block : list action := [setIsLoading false].

(** The part of the [try] block after [await axios.get(...)], with its
    [catch] and [finally]. *)
Definition resume (r : settled) (now : Date) : list action :=
  match r with
  | Rejected err => catch_block err ++ finally_block
  | Fulfilled data =>
      if negb (isArray data)
      then catch_block (Error "Unexpected backend response") ++ finally_block
      else [setTrends data; setLastUpdated now] ++ finally_block
  end.

(** [fetchTrends], given the value of [process.env.REACT_APP_BACKEND_URL]
    ([None] when it is not defined). *)
Definition fetchTrends (REACT_APP_BACKEND_URL : option string) : async :=
  let entry := [setIsLoading true; setError (VStr EmptyString)] in
  match REACT_APP_BACKEND_URL with
  | None | Some EmptyString =>
      Return (entry
              ++ catch_block (Error "REACT_APP_BACKEND_URL not set in .env")
              ++ finally_block)
  | Some apiBase => Await entry (apiBase ++ "/api/trending")%string resume
  end.

(** [useEffect(() => { fetchTrends(); const intervalId =
    setInterval(fetchTrends, 300000); return () => clearInterval(intervalId);
    }, [fetchTrends])], with [fetchTrends] memoised once ([useCallback(..., [])]):
    the effect runs at mount only. *)
Definition mount (env : option string) : component * list action :=
  let '(c, calls) :=
    invoke (fetchTrends env) (mkComponent initial true None []) in
  (mkComponent (hooks c) true (Some (fetchTrends env)) (pending c),
   calls ++ [setInterval 300000]).

(** Nothing this revision does depends on the outcome of a render: when a
    render throws, React unmounts the tree, and that unmount is one of the
    [Unmount] events. *)
Definition step (c : component) (e : event) : component * list action :=
  match e with
  | Tick =>
      match timer c with
      | Some p => invoke p c
      | None => (c, [])
      end
  | Settle i r now => settle i r now c
  | Unmount => unmount c
  end.

Definition exec (c : component) (es : list event) : component :=
  fold_left (fun c e => fst (step c e)) es c.

(** The cycle that ends when it is rejected, when the payload is not an
    array, or at once when the configuration is missing; it succeeds
    otherwise. *)
Definition verdict (r : settled) (now : Date) : outcome :=
  match r with
  | Rejected err => Failed err
  | Fulfilled data =>
      if isArray data then Succeeded data now
      else Failed (Error "Unexpected backend response")
  end.

Definition finished (p : async) : option outcome :=
  match p with
  | Return _ => Some (Failed (Error "REACT_APP_BACKEND_URL not set in .env"))
  | Await _ _ _ => None
  end.

(** The outcome of one cycle that runs without interleaving. *)
Definition cycle_outcome (env : option string) (net : settled) (now : Date)
  : outcome :=
  match finished (fetchTrends env) with
  | Some o => o
  | None => verdict net now
  end.

(** The cycle that the event [e] brings to its end at [c], if any. *)
Definition ends (c : component) (e : event) : option outcome :=
  match e with
  | Tick =>
      match timer c with
      | Some p => finished p
      | None => None
      end
  | Settle i r now =>
      match nth_error (pending c) i with
      | Some _ => Some (verdict r now)
      | None => None
      end
  | Unmount => None
  end.

Fixpoint outcomes (c : component) (es : list event) : list outcome :=
  match es with
  | [] => []
  | e :: rest => opt_list (ends c e) ++ outcomes (fst (step c e)) rest
  end.

(** The outcomes of all cycles ended by the time [es] have happened to the
    component mounted with configuration [env]. *)
Definition history (env : option string) (es : list event) : list outcome :=
  opt_list (finished (fetchTrends env)) ++ outcomes (fst (mount env)) es.

Section Render.

Variable toLocaleTimeString : Date -> string.
Variable Number_toString : number -> string.

(** [trend.score?.toFixed(2) ?? 'N/A']; [None] is the TypeError of calling
    [toFixed] on a value that has none. *)
Definition score_text (sc : value) : option string :=
  match sc with
  | VUndefined | VNull => Some "N/A"
  | VNum n => Some (toFixed Number_toString n 2)
  | _ => None
  end.

(** The [<li>] that the [map] callback returns for one element of [trends]. *)
Definition post (trend : value) : option element :=
  match member trend "sentiment", member trend "text", member trend "score" with
  | Some se, Some te, Some sc =>
      match score_text sc with
      | Some txt =>
          Some (Elem "li"
                  [Elem "div" [Elem "strong" [Text "Sentiment:"]; Text " "; Expr se];
                   Elem "div" [Expr te];
                   Elem "div" [Text "Score: "; Expr (VStr txt)]])
      | None => None
      end
  | _, _, _ => None
  end.

(** [trends.length === 0]; [None] is the TypeError on [null] and
    [undefined]. *)
Definition length_is_zero (v : value) : option bool :=
  match v with
  | VUndefined | VNull => None
  | VArr l => Some (Nat.eqb (List.length l) 0)
  | VStr str => Some (Nat.eqb (String.length str) 0)
  | VObj fields =>
      Some (match lookup "length" fields with
            | VNum (Finite q) => (Qnum q =? 0)%Z
            | _ => false
            end)
  | VBool _ | VNum _ => Some false
  end.

(** The header: the title and, when [lastUpdated] is set, the time. *)
Definition header (s : state) : element :=
  Elem "div"
    [Elem "h2" [Text "Live Posts from X"];
     match lastUpdated s with
     | Some d => Elem "span" [Text "Updated at: "; Expr (VStr (toLocaleTimeString d))]
     | None => Expr VNull
     end].

(** The conditional below the header. *)
Definition body (s : state) : option element :=
  if isLoading s then Some (Elem "p" [Text "Loading posts..."])
  else if truthy (error s) then Some (Elem "p" [Expr (error s)])
  else
    match length_is_zero (trends s) with
    | None => None
    | Some true => Some (Elem "p" [Text "No trending posts found."])
    | Some false =>
        match trends s with
        | VArr items => option_map (Elem "ul") (map_or_throw post items)
        | _ => None
        end
    end.

(** Whether the render of the state [s] throws: in the component function
    (a TypeError of [body]) or in React, on a child that is an object. *)
Definition throws (s : state) : bool :=
  match body s with
  | Some b => negb (renderable b)
  | None => true
  end.

(** What is rendered for the state [s]; [None] when the render throws. *)
Definition TrendingPosts (s : state) : option element :=
  if throws s then None
  else option_map (fun b => Elem "div" [header s; b]) (body s).

End Render.

End Part000.

(** ** The revision in [frontend/src/components/TrendingPosts.js] *)

Module Frontend.

(** [catch (err) { console.error(...); setError(err.response?.data?.error ||
    'Could not load trends.'); }] *)
Definition error_text (err : exn) : value :=
  or_else (response_data_error err) (VStr "Could not load trends.").

Definition catch_block (err : exn) : list action :=
  [console_error "Error fetching trends:" err; setError (error_text err)].

(** [finally { setIsLoading(false); }] *)
Definition finally_block : list action := [setIsLoading false].

(** The part of the [try] block after [await axios.get(...)], with its
    [catch] and [finally]. *)
Definition resume (r : settled) (now : Date) : list action :=
  match r with
  | Rejected err => catch_block err ++ finally_block
  | Fulfilled data => [setTrends data; setLastUpdated now] ++ finally_block
  end.

(** [process.env.REACT_APP_BACKEND_URL || "http://127.0.0.1:5001"] *)
Definition apiBase (REACT_APP_BACKEND_URL : option string) : string :=
  match REACT_APP_BACKEND_URL with
  | None | Some EmptyString => "http://127.0.0.1:5001"
  | Some url => url
  end.

(** The [fetchTrends] that [useCallback(..., [lastUpdated])] makes in a render
    where the cell [lastUpdated] holds [captured]. *)
Definition fetchTrends (captured : option Date) (env : option string) : async :=
  let entry :=
    match captured with
    | None => [setIsLoading true]
    | Some _ => []
    end ++ [setError (VStr EmptyString)] in
  Await entry (apiBase env ++ "/api/trending")%string resume.

(** The effect [() => { fetchTrends(); const intervalId =
    setInterval(fetchTrends, 300000); return () => clearInterval(intervalId); }]
    run with the [fetchTrends] of the committed render. *)
Definition effect (env : option string) (c : component)
  : component * list action :=
  let p := fetchTrends (lastUpdated (hooks c)) env in
  let '(c', calls) := invoke p c in
  (mkComponent (hooks c') (mounted c') (Some p) (pending c'),
   calls ++ [setInterval 300000]).

Definition mount (env : option string) : component * list action :=
  effect env (mkComponent initial true None []).

Definition sets_lastUpdated (calls : list action) : bool :=
  existsb (fun a => match a with setLastUpdated _ => true | _ => false end)
          calls.

(** The conditional below the header; [trends.map] exists on arrays only. *)
Definition body (s : state) : option element :=
  if isLoading s then Some (Elem "p" [Text "Loading posts..."])
  else if truthy (error s) then Some (Elem "p" [Expr (error s)])
  else
    match trends s with
    | VArr items =>
        Some (Elem "ul" (map (fun trend => Elem "li" [Expr trend]) items))
    | _ => None
    end.

(** Whether the render of the state [s] throws: in the component function
    (a TypeError of [body]) or in React, on a child that is an object. *)
Definition throws (s : state) : bool :=
  match body s with
  | Some b => negb (renderable b)
  | None => true
  end.

(** React renders the mounted component.  When the render throws, React
    unmounts the tree, which runs the cleanup of the effect. *)
Definition rendered (c : component) : component * list action :=
  if mounted c && throws (hooks c) then unmount c else (c, []).

(** What follows a batch of calls among which a setter was called: the
    component is rendered again; if the render succeeds and
    [setLastUpdated(new Date())] was called, which stores a new object, the
    dependency of [useCallback] has changed, [fetchTrends] is a new function
    and the effect, which depends on it, is cleaned up and run again; the
    setter calls of the [fetchTrends] it invokes are followed by one more
    render. *)
Definition commit (env : option string) (calls : list action) (c : component)
  : component * list action :=
  if existsb is_state_update calls
  then
    let '(c1, calls1) := rendered c in
    if mounted c1 && sets_lastUpdated calls
    then
      let '(c2, calls2) :=
        effect env (mkComponent (hooks c1) (mounted c1) None (pending c1)) in
      let '(c3, calls3) := rendered c2 in
      (c3, calls1 ++ [clearInterval] ++ calls2 ++ calls3)
    else (c1, calls1)
  else (c, []).

(** The calls of an event, followed by what React does after them. *)
Definition react (env : option string) (r : component * list action)
  : component * list action :=
  let '(c1, calls) := r in
  let '(c2, calls') := commit env calls c1 in
  (c2, calls ++ calls').

Definition step (env : option string) (c : component) (e : event)
  : component * list action :=
  match e with
  | Tick =>
      match timer c with
      | Some p => react env (invoke p c)
      | None => (c, [])
      end
  | Settle i r now => react env (settle i r now c)
  | Unmount => unmount c
  end.

Definition exec (env : option string) (c : component) (es : list event)
  : component :=
  fold_left (fun c e => fst (step env c e)) es c.

(** A cycle fails when its request is rejected, and succeeds otherwise. *)
Definition verdict (r : settled) (now : Date) : outcome :=
  match r with
  | Rejected err => Failed err
  | Fulfilled data => Succeeded data now
  end.

(** The cycle that the event [e] brings to its end at [c], if any. *)
Definition ends (c : component) (e : event) : option outcome :=
  match e with
  | Settle i r now =>
      match nth_error (pending c) i with
      | Some _ => Some (verdict r now)
      | None => None
      end
  | Tick | Unmount => None
  end.

Fixpoint outcomes (env : option string) (c : component) (es : list event)
  : list outcome :=
  match es with
  | [] => []
  | e :: rest => opt_list (ends c e) ++ outcomes env (fst (step env c e)) rest
  end.

Definition history (env : option string) (es : list event) : list outcome :=
  outcomes env (fst (mount env)) es.

Section Render.

Variable toLocaleTimeString : Date -> string.

(** The header: the title and, when [lastUpdated] is set, the time. *)
Definition header (s : state) : element :=
  Elem "div"
    [Elem "h2" [Text "Live Posts from X"];
     match lastUpdated s with
     | Some d => Elem "span" [Text "Updated at: "; Expr (VStr (toLocaleTimeString d))]
     | None => Expr VNull
     end].

(** What is rendered for the state [s]; [None] when the render throws. *)
Definition TrendingPosts (s : state) : option element :=
  if throws s then None
  else option_map (fun b => Elem "div" [header s; b]) (body s).

End Render.

End Frontend.

(** * Statements, invariants and auxiliary facts *)

(** ** The statements of the specification *)

(** A cycle that ends in an error state without any HTTP request. *)
Definition error_without_request (s : state) (calls : list action) : Prop :=
  existsb is_request calls = false /\ truthy (error (run s calls)) = true.

(** A cycle that ends in an error state and leaves the items as they were. *)
Definition error_keeping_items (s : state) (calls : list action) : Prop :=
  truthy (error (run s calls)) = true /\ trends (run s calls) = trends s.

(** The message preferred for a failure: the server-supplied error text when
    there is one, else the exception's own message, else the generic
    fallback. *)
Definition preferred_message (err : exn) : value :=
  if truthy (response_data_error err) then response_data_error err
  else
    match message err with
    | EmptyString => VStr "Could not load trends."
    | msg => VStr msg
    end.

(** Calls that enter the loading state only when no fetch has succeeded in
    the history [h]. *)
Definition loading_only_before_success (h : list outcome) (calls : list action)
  : Prop :=
  In (setIsLoading true) calls -> latest h = None.


(** How a fetch cycle ends, in the words of the specification. *)
Inductive cycle_result : Type :=
| Success (data : value) (now : Date)
| ConfigError
| TransportError (err : exn)
| SchemaError.

(** The result of a cycle whose request settled: a transport failure when it
    was rejected, a validation failure when the body is not an array, a
    success otherwise. *)
Definition classify (r : settled) (now : Date) : cycle_result :=
  match r with
  | Rejected err => TransportError err
  | Fulfilled data => if isArray data then Success data now else SchemaError
  end.

Definition failed (r : settled) : bool :=
  match r with
  | Rejected _ => true
  | Fulfilled data => negb (isArray data)
  end.

(** The result of the cycle that the event [e] ends by settling a pending
    request of [c]. *)
Definition settles (c : component) (e : event) : option cycle_result :=
  match e with
  | Settle i r now =>
      if (i <? List.length (pending c))%nat then Some (classify r now) else None
  | Tick | Unmount => None
  end.

(** The results of the cycles settled while the events [es] happen to [c],
    oldest first, for a component that moves by [step]. *)
Fixpoint results (step : component -> event -> component * list action)
  (c : component) (es : list event) : list cycle_result :=
  match es with
  | [] => []
  | e :: rest => opt_list (settles c e) ++ results step (fst (step c e)) rest
  end.

(** The payload and time of the most recent success among [l]. *)
Fixpoint last_success (l : list cycle_result) : option (value * Date) :=
  match l with
  | [] => None
  | x :: rest =>
      match last_success rest with
      | Some y => Some y
      | None =>
          match x with
          | Success data now => Some (data, now)
          | _ => None
          end
      end
  end.

(** A state that shows stale data on error: the items are [data] and an error
    message is set. *)
Definition stale_on_failure (data : value) (s' : state) : Prop :=
  trends s' = data /\ truthy (error s') = true.

(** A cycle from [s] to [s'] that leaves the timestamp alone. *)
Definition timestamp_kept (s s' : state) : Prop :=
  lastUpdated s' = lastUpdated s.

Section Views.

Variable Number_toString : number -> string.





End Views.

(** A view that shows the no-results placeholder. *)
Definition shows_placeholder (view : option element) : Prop :=
  exists e, view = Some e /\ In "No trending posts found." (displayed e).

(** ** Invariants of the mounted component *)

(** The pending invocations of a component are all suspended at the [await]
    of the same function body [k]. *)
Definition suspended_at (k : settled -> Date -> list action) (c : component)
  : Prop :=
  Forall (fun k' => k' = k) (pending c).

(** In [unnamed/part_000] the interval callback, while there is one, is the
    one [fetchTrends] of the component. *)
Definition Part000_inv (env : option string) (c : component) : Prop :=
  suspended_at Part000.resume c /\
  (timer c = None \/ timer c = Some (Part000.fetchTrends env)) /\
  (mounted c = false -> timer c = None).

(** The interval callback is always the [fetchTrends] that captured the
    current value of the cell [lastUpdated]. *)
Definition Frontend_inv (env : option string) (c : component) : Prop :=
  suspended_at Frontend.resume c /\
  (timer c = None \/
   timer c = Some (Frontend.fetchTrends (lastUpdated (hooks c)) env)) /\
  (mounted c = false -> timer c = None).

(** A call that enters the loading state. *)
Definition sets_loading (a : action) : bool :=
  match a with setIsLoading true => true | _ => false end.

(** ** Sessions: all the calls of a mounted component *)

(** The calls made, in order, while the events [es] happen to [c]. *)
Fixpoint Part000_transcript (c : component) (es : list event) : list action :=
  match es with
  | [] => []
  | e :: rest =>
      snd (Part000.step c e) ++ Part000_transcript (fst (Part000.step c e)) rest
  end.

Fixpoint Frontend_transcript (env : option string) (c : component)
  (es : list event) : list action :=
  match es with
  | [] => []
  | e :: rest =>
      snd (Frontend.step env c e)
      ++ Frontend_transcript env (fst (Frontend.step env c e)) rest
  end.

(** All the calls from mount on. *)
Definition Part000_session (env : option string) (es : list event)
  : list action :=
  snd (Part000.mount env) ++ Part000_transcript (fst (Part000.mount env)) es.

Definition Frontend_session (env : option string) (es : list event)
  : list action :=
  snd (Frontend.mount env)
  ++ Frontend_transcript env (fst (Frontend.mount env)) es.

(** The events up to the first unmount. *)
Fixpoint before_unmount (es : list event) : list event :=
  match es with
  | [] => []
  | Unmount :: _ => []
  | e :: rest => e :: before_unmount rest
  end.

Definition is_tick (e : event) : bool :=
  match e with Tick => true | _ => false end.

Definition is_setInterval (a : action) : bool :=
  match a with setInterval _ => true | _ => false end.

Definition is_clearInterval (a : action) : bool :=
  match a with clearInterval => true | _ => false end.

(** How many calls of a kind were made. *)
Definition count {A : Type} (p : A -> bool) (l : list A) : nat :=
  List.length (filter p l).

(** Whether [REACT_APP_BACKEND_URL] holds a non-empty string. *)
Definition configured (env : option string) : bool :=
  match env with
  | None | Some EmptyString => false
  | Some _ => true
  end.

Definition timer_active (c : component) : bool :=
  match timer c with Some _ => true | None => false end.

(** How many of the events [es] are ticks of an active interval, for a
    component that starts at [c] and moves by [step]. *)
Fixpoint live_ticks (step : component -> event -> component * list action)
  (c : component) (es : list event) : nat :=
  match es with
  | [] => 0
  | e :: rest =>
      (if is_tick e && timer_active c then 1 else 0)
      + live_ticks step (fst (step c e)) rest
  end.

(** A call that is neither a request to another URL than [url] nor the
    registration of a timer with another period than five minutes. *)
Definition targets (url : string) (a : action) : Prop :=
  match a with
  | axios_get u => u = url
  | setInterval ms => ms = 300000%Z
  | _ => True
  end.

(** The error paragraph, below the header. *)
Definition error_view (hdr : element) (msg : value) : element :=
  Elem "div" [hdr; Elem "p" [Expr msg]].

(** The loading indicator, below the header. *)
Definition loading_view (hdr : element) : element :=
  Elem "div" [hdr; Elem "p" [Text "Loading posts..."]].

(** An array element that makes the render of [unnamed/part_000] throw:
    [null] or [undefined] (reading a field fails), a value whose [score] is
    neither a number nor [null] nor [undefined] (calling [toFixed] fails), or
    a value whose [sentiment] or [text] is not a valid child. *)
Definition unrenderable (v : value) : bool :=
  match member v "sentiment", member v "text", member v "score" with
  | Some se, Some te, Some sc =>
      negb (valid_child se) || negb (valid_child te)
      || match sc with
         | VUndefined | VNull | VNum _ => false
         | _ => true
         end
  | _, _, _ => true
  end.

(** ** Auxiliary facts *)

Lemma run_app (s : state) (t u : list action) :
  run s (t ++ u) = run (run s t) u.
Proof. unfold run. apply fold_left_app. Qed.

Lemma latest_app (h k : list outcome) :
  latest (h ++ k) =
  match latest k with
  | Some x => Some x
  | None => latest h
  end.
Proof.
  induction h as [|o h IH]; simpl.
  - destruct (latest k); reflexivity.
  - rewrite IH. destruct (latest k); reflexivity.
Qed.

Lemma nth_error_Forall {A : Type} (P : A -> Prop) (l : list A) (i : nat) (x : A) :
  Forall P l -> nth_error l i = Some x -> P x.
Proof.
  intros HF Hn. apply nth_error_In in Hn.
  rewrite Forall_forall in HF. auto.
Qed.

Lemma remove_nth_Forall {A : Type} (P : A -> Prop) (l : list A) (i : nat) :
  Forall P l -> Forall P (remove_nth i l).
Proof.
  intros HF. revert i.
  induction HF as [|x l Hx HF IH]; intros i; destruct i; simpl;
    try constructor; auto.
Qed.

Lemma settle_suspended k i r now c :
  suspended_at k c -> suspended_at k (fst (settle i r now c)).
Proof.
  unfold suspended_at, settle. intros H.
  destruct (nth_error (pending c) i); simpl; [|assumption].
  now apply remove_nth_Forall.
Qed.

Lemma unmount_suspended k c :
  suspended_at k c -> suspended_at k (fst (unmount c)).
Proof.
  unfold suspended_at, unmount. intros H.
  destruct (mounted c); simpl; assumption.
Qed.

Lemma invoke_suspended k p c :
  suspended_at k c ->
  (forall k', continuation p = Some k' -> k' = k) ->
  suspended_at k (fst (invoke p c)).
Proof.
  unfold suspended_at, invoke. simpl. intros H Hp.
  apply Forall_app. split; [assumption|].
  destruct (continuation p) as [k'|]; simpl; constructor; auto.
Qed.

(** ** Facts about the revision in [unnamed/part_000] *)

Lemma Part000_continuation env k :
  continuation (Part000.fetchTrends env) = Some k -> k = Part000.resume.
Proof.
  destruct env as [[|a base]|]; simpl; intros H; congruence.
Qed.

Lemma Part000_resume_run (s : state) (r : settled) (now : Date) :
  run s (Part000.resume r now) =
  match Part000.verdict r now with
  | Succeeded data t => mkState data false (error s) (Some t)
  | Failed err =>
      mkState (trends s) false (Part000.error_text err) (lastUpdated s)
  end.
Proof.
  destruct r as [data|err]; simpl; [|reflexivity].
  destruct (isArray data); reflexivity.
Qed.

Lemma Part000_started_run (env : option string) (s : state) :
  run s (started (Part000.fetchTrends env)) =
  match Part000.finished (Part000.fetchTrends env) with
  | Some (Failed err) =>
      mkState (trends s) false (Part000.error_text err) (lastUpdated s)
  | _ => mkState (trends s) true (VStr EmptyString) (lastUpdated s)
  end.
Proof.
  destruct env as [[|a base]|]; reflexivity.
Qed.

Lemma Part000_mount_inv env : Part000_inv env (fst (Part000.mount env)).
Proof.
  unfold Part000_inv, suspended_at.
  destruct env as [[|a base]|]; simpl;
    (split; [repeat constructor | split; [right; reflexivity | discriminate]]).
Qed.

Lemma Part000_step_inv env c e :
  Part000_inv env c -> Part000_inv env (fst (Part000.step c e)).
Proof.
  intros (Hs & Ht & Hm). destruct e as [|i r now|]; simpl.
  - destruct (timer c) as [p|] eqn:Hp.
    + split; [|simpl; rewrite Hp; split; auto].
      apply invoke_suspended; [assumption|].
      destruct Ht as [Ht|Ht]; [discriminate|].
      inversion Ht. apply Part000_continuation.
    + simpl. repeat split; auto.
  - split; [now apply settle_suspended|].
    unfold settle. destruct (nth_error (pending c) i); simpl; auto.
  - split; [now apply unmount_suspended|].
    unfold unmount. destruct (mounted c); simpl; auto.
Qed.

Lemma Part000_exec_inv env es : forall c,
  Part000_inv env c -> Part000_inv env (Part000.exec c es).
Proof.
  induction es as [|e es IH]; intros c H; simpl; [assumption|].
  apply IH. now apply Part000_step_inv.
Qed.

(** What the end of a cycle does to the cells. *)
Lemma Part000_step_ends env c e o :
  Part000_inv env c ->
  Part000.ends c e = Some o ->
  hooks (fst (Part000.step c e)) =
  match o with
  | Succeeded data t => mkState data false (error (hooks c)) (Some t)
  | Failed err =>
      mkState (trends (hooks c)) false (Part000.error_text err)
              (lastUpdated (hooks c))
  end.
Proof.
  intros (Hs & Ht & Hm) He. destruct e as [|i r now|]; simpl in *.
  - destruct Ht as [Ht|Ht]; rewrite Ht in *; [discriminate|].
    simpl. rewrite Part000_started_run, He.
    destruct env as [[|a base]|]; simpl in He; inversion He; reflexivity.
  - unfold settle. destruct (nth_error (pending c) i) as [k|] eqn:Hk;
      [|discriminate].
    apply (nth_error_Forall _ _ _ _ Hs) in Hk. subst k.
    inversion He; subst o. simpl. apply Part000_resume_run.
  - discriminate.
Qed.

(** An event that ends no cycle leaves the items and the timestamp alone. *)
Lemma Part000_step_other env c e :
  Part000_inv env c ->
  Part000.ends c e = None ->
  trends (hooks (fst (Part000.step c e))) = trends (hooks c) /\
  lastUpdated (hooks (fst (Part000.step c e))) = lastUpdated (hooks c).
Proof.
  intros (Hs & Ht & Hm) He. destruct e as [|i r now|]; simpl in *.
  - destruct Ht as [Ht|Ht]; rewrite Ht in *; [auto|].
    simpl. rewrite Part000_started_run, He. auto.
  - unfold settle. destruct (nth_error (pending c) i); [discriminate|auto].
  - unfold unmount. destruct (mounted c); auto.
Qed.

(** The items and the timestamp are those of the most recent success. *)
Lemma Part000_exec_latest env es : forall c,
  Part000_inv env c ->
  trends (hooks (Part000.exec c es)) =
    match latest (Part000.outcomes c es) with
    | Some (data, _) => data
    | None => trends (hooks c)
    end /\
  lastUpdated (hooks (Part000.exec c es)) =
    match latest (Part000.outcomes c es) with
    | Some (_, t) => Some t
    | None => lastUpdated (hooks c)
    end.
Proof.
  induction es as [|e es IH]; intros c Hinv; simpl; [auto|].
  destruct (IH _ (Part000_step_inv _ _ e Hinv)) as [IHt IHl].
  fold (Part000.exec (fst (Part000.step c e)) es).
  rewrite IHt, IHl, latest_app.
  destruct (latest (Part000.outcomes (fst (Part000.step c e)) es))
    as [[data t]|]; [auto|].
  destruct (Part000.ends c e) as [o|] eqn:He.
  - rewrite (Part000_step_ends _ _ _ _ Hinv He).
    destruct o; simpl; auto.
  - destruct (Part000_step_other _ _ _ Hinv He) as [H1 H2].
    rewrite H1, H2. simpl. auto.
Qed.

Lemma Part000_history_latest env es :
  latest (Part000.history env es) =
  latest (Part000.outcomes (fst (Part000.mount env)) es).
Proof.
  unfold Part000.history. rewrite latest_app.
  destruct (latest (Part000.outcomes (fst (Part000.mount env)) es));
    [reflexivity|].
  destruct env as [[|a base]|]; reflexivity.
Qed.

(** ** Facts about the revision in [frontend/src/components/TrendingPosts.js] *)

Lemma Frontend_resume_run (s : state) (r : settled) (now : Date) :
  run s (Frontend.resume r now) =
  match Frontend.verdict r now with
  | Succeeded data t => mkState data false (error s) (Some t)
  | Failed err =>
      mkState (trends s) false (Frontend.error_text err) (lastUpdated s)
  end.
Proof. destruct r; reflexivity. Qed.

Lemma Frontend_started_run (captured : option Date) env (s : state) :
  run s (started (Frontend.fetchTrends captured env)) =
  mkState (trends s)
          (match captured with None => true | Some _ => isLoading s end)
          (VStr EmptyString) (lastUpdated s).
Proof. destruct captured; reflexivity. Qed.

Lemma Frontend_sets_lastUpdated (r : settled) (now : Date) :
  Frontend.sets_lastUpdated (Frontend.resume r now) =
  match r with Fulfilled _ => true | Rejected _ => false end.
Proof. destruct r; reflexivity. Qed.

Lemma Frontend_mount_inv env : Frontend_inv env (fst (Frontend.mount env)).
Proof.
  unfold Frontend_inv, suspended_at. simpl.
  split; [repeat constructor | split; [right; reflexivity | discriminate]].
Qed.

(** What a timer tick does to a component whose interval is active: the
    cycle starts, and the component is unmounted if the render that follows
    throws. *)
Lemma Frontend_tick_step env c :
  Frontend_inv env c ->
  timer c <> None ->
  Frontend.step env c Tick =
  let p := Frontend.fetchTrends (lastUpdated (hooks c)) env in
  let h := run (hooks c) (started p) in
  if mounted c && Frontend.throws h
  then (mkComponent h false None (pending c ++ [Frontend.resume]),
        started p ++ [clearInterval])
  else (mkComponent h (mounted c) (timer c) (pending c ++ [Frontend.resume]),
        started p).
Proof.
  intros (Hs & Ht & Hm) Hn. destruct Ht as [Ht|Ht]; [contradiction|].
  unfold Frontend.step. rewrite Ht. cbv zeta.
  set (p := Frontend.fetchTrends (lastUpdated (hooks c)) env).
  assert (Hu : existsb is_state_update (started p) = true)
    by (unfold p; destruct (lastUpdated (hooks c)); reflexivity).
  assert (Hl : Frontend.sets_lastUpdated (started p) = false)
    by (unfold p; destruct (lastUpdated (hooks c)); reflexivity).
  unfold Frontend.react, invoke, Frontend.commit, Frontend.rendered.
  rewrite Hu, Hl. cbn [hooks mounted].
  destruct (mounted c) eqn:Hmc; cbn [andb].
  - destruct (Frontend.throws (run (hooks c) (started p))).
    + unfold unmount. cbn [mounted hooks pending andb]. reflexivity.
    + cbn [mounted andb]. rewrite ?andb_false_r, ?app_nil_r, ?Ht. reflexivity.
  - cbn [mounted andb]. rewrite ?app_nil_r, ?Ht. reflexivity.
Qed.

(** What the settlement of a pending request does: the completion handler
    runs; if the component is mounted it is rendered, and unmounted if the
    render throws; after a fulfilled request whose render succeeded the
    effect runs again, and the render that follows the new cycle's calls may
    throw in its turn. *)
Lemma Frontend_settle_step env c i r now :
  Frontend_inv env c ->
  i < List.length (pending c) ->
  Frontend.step env c (Settle i r now) =
  let h1 := run (hooks c) (Frontend.resume r now) in
  let rest := remove_nth i (pending c) in
  if mounted c
  then
    if Frontend.throws h1
    then (mkComponent h1 false None rest, Frontend.resume r now ++ [clearInterval])
    else
      match r with
      | Rejected _ => (mkComponent h1 true (timer c) rest, Frontend.resume r now)
      | Fulfilled data =>
          let p := Frontend.fetchTrends (Some now) env in
          let h2 := mkState data false (VStr EmptyString) (Some now) in
          if Frontend.throws h2
          then (mkComponent h2 false None (rest ++ [Frontend.resume]),
                Frontend.resume r now ++ [clearInterval] ++ started p
                ++ [setInterval 300000; clearInterval])
          else (mkComponent h2 true (Some p) (rest ++ [Frontend.resume]),
                Frontend.resume r now ++ [clearInterval] ++ started p
                ++ [setInterval 300000])
      end
  else (mkComponent h1 false (timer c) rest, Frontend.resume r now).
Proof.
  intros (Hs & _ & _) Hi. unfold Frontend.step, settle.
  destruct (nth_error (pending c) i) as [k|] eqn:Hk.
  - apply (nth_error_Forall _ _ _ _ Hs) in Hk. subst k. cbv zeta.
    assert (Hu : existsb is_state_update (Frontend.resume r now) = true)
      by (destruct r; reflexivity).
    unfold Frontend.react, Frontend.commit, Frontend.rendered.
    rewrite Hu, Frontend_sets_lastUpdated. cbn [hooks mounted].
    destruct (mounted c) eqn:Hmc; cbn [andb].
    + destruct (Frontend.throws (run (hooks c) (Frontend.resume r now))) eqn:Ht1.
      * unfold unmount. cbn [mounted hooks pending andb]. reflexivity.
      * cbn [mounted andb]. destruct r as [data|err].
        -- unfold Frontend.effect, invoke.
           cbn [hooks mounted pending continuation Frontend.fetchTrends
                fst snd].
           change (lastUpdated (run (hooks c) (Frontend.resume (Fulfilled data) now)))
             with (Some now).
           change (run (run (hooks c) (Frontend.resume (Fulfilled data) now))
                       (started (Frontend.fetchTrends (Some now) env)))
             with (mkState data false (VStr EmptyString) (Some now)).
           destruct (Frontend.throws
                       (mkState data false (VStr EmptyString) (Some now))).
           ++ unfold unmount. cbn [mounted hooks pending andb]. reflexivity.
           ++ cbn [andb]. reflexivity.
        -- rewrite ?app_nil_r. reflexivity.
    + cbn [mounted andb]. rewrite ?app_nil_r. reflexivity.
  - apply nth_error_None in Hk. lia.
Qed.

Lemma Frontend_settle_none env c i r now :
  List.length (pending c) <= i ->
  Frontend.step env c (Settle i r now) = (c, []).
Proof.
  intros Hi. apply nth_error_None in Hi.
  unfold Frontend.step, settle. rewrite Hi. reflexivity.
Qed.

Lemma suspended_rest k c i :
  suspended_at k c -> Forall (fun k' => k' = k) (remove_nth i (pending c)).
Proof. intros H. now apply remove_nth_Forall. Qed.

Lemma suspended_more k (l : list (settled -> Date -> list action)) :
  Forall (fun k' => k' = k) l -> Forall (fun k' => k' = k) (l ++ [k]).
Proof. intros H. apply Forall_app. split; [assumption | repeat constructor]. Qed.

Lemma Frontend_step_inv env c e :
  Frontend_inv env c -> Frontend_inv env (fst (Frontend.step env c e)).
Proof.
  intros Hinv. pose proof Hinv as (Hs & Ht & Hm).
  destruct e as [|i r now|].
  - destruct (timer c) as [p|] eqn:Hp.
    + rewrite (Frontend_tick_step env c Hinv) by (rewrite Hp; discriminate).
      cbv zeta. set (q := Frontend.fetchTrends (lastUpdated (hooks c)) env).
      destruct (mounted c && Frontend.throws (run (hooks c) (started q)));
        unfold Frontend_inv, suspended_at; cbn [fst hooks mounted timer pending].
      * split; [now apply suspended_more | auto].
      * split; [now apply suspended_more|].
        unfold q. rewrite Frontend_started_run. cbn [lastUpdated].
        rewrite Hp. split; [exact Ht | exact Hm].
    + unfold Frontend.step. rewrite Hp. exact Hinv.
  - destruct (Nat.lt_ge_cases i (List.length (pending c))) as [Hi|Hi].
    + rewrite (Frontend_settle_step env c i r now Hinv Hi). cbv zeta.
      destruct (mounted c) eqn:Hmc.
      * destruct (Frontend.throws (run (hooks c) (Frontend.resume r now))).
        -- unfold Frontend_inv, suspended_at. cbn [fst hooks mounted timer pending].
           split; [now apply suspended_rest | auto].
        -- destruct r as [data|err].
           ++ destruct (Frontend.throws
                          (mkState data false (VStr EmptyString) (Some now)));
                unfold Frontend_inv, suspended_at;
                cbn [fst hooks mounted timer pending lastUpdated];
                (split; [apply suspended_more; now apply suspended_rest|]).
              ** auto.
              ** split; [right; reflexivity | discriminate].
           ++ unfold Frontend_inv, suspended_at.
              cbn [fst hooks mounted timer pending].
              split; [now apply suspended_rest|].
              rewrite Frontend_resume_run. cbn [Frontend.verdict lastUpdated].
              split; [exact Ht | discriminate].
      * unfold Frontend_inv, suspended_at. cbn [fst hooks mounted timer pending].
        split; [now apply suspended_rest|].
        rewrite (Hm eq_refl). auto.
    + rewrite (Frontend_settle_none env c i r now Hi). exact Hinv.
  - split; [now apply unmount_suspended|].
    unfold Frontend.step, unmount. destruct (mounted c); simpl; auto.
Qed.

Lemma Frontend_exec_inv env es : forall c,
  Frontend_inv env c -> Frontend_inv env (Frontend.exec env c es).
Proof.
  induction es as [|e es IH]; intros c H; simpl; [assumption|].
  apply IH. now apply Frontend_step_inv.
Qed.

Lemma Frontend_ends_valid c i r now :
  i < List.length (pending c) ->
  Frontend.ends c (Settle i r now) = Some (Frontend.verdict r now).
Proof.
  intros Hi. simpl. destruct (nth_error (pending c) i) eqn:Hk; [reflexivity|].
  apply nth_error_None in Hk. lia.
Qed.

Lemma Frontend_ends_none c i r now :
  List.length (pending c) <= i -> Frontend.ends c (Settle i r now) = None.
Proof.
  intros Hi. apply nth_error_None in Hi. simpl. rewrite Hi. reflexivity.
Qed.

(** What the end of a cycle does to the cells. *)
Lemma Frontend_step_ends env c e o :
  Frontend_inv env c ->
  Frontend.ends c e = Some o ->
  match o with
  | Succeeded data t =>
      trends (hooks (fst (Frontend.step env c e))) = data /\
      isLoading (hooks (fst (Frontend.step env c e))) = false /\
      lastUpdated (hooks (fst (Frontend.step env c e))) = Some t
  | Failed err =>
      hooks (fst (Frontend.step env c e)) =
      mkState (trends (hooks c)) false (Frontend.error_text err)
              (lastUpdated (hooks c))
  end.
Proof.
  intros Hinv He. destruct e as [|i r now|]; try discriminate.
  destruct (Nat.lt_ge_cases i (List.length (pending c))) as [Hi|Hi];
    [|rewrite (Frontend_ends_none c i r now Hi) in He; discriminate].
  rewrite (Frontend_ends_valid c i r now Hi) in He. inversion He; subst o.
  rewrite (Frontend_settle_step env c i r now Hinv Hi). cbv zeta.
  rewrite Frontend_resume_run.
  destruct r as [data|err]; cbn [Frontend.verdict];
    destruct (mounted c);
    repeat match goal with
           | |- context [if Frontend.throws ?s then _ else _] =>
               destruct (Frontend.throws s)
           end; cbn [fst hooks trends isLoading lastUpdated]; auto.
Qed.

(** An event that ends no cycle leaves the items and the timestamp alone. *)
Lemma Frontend_step_other env c e :
  Frontend_inv env c ->
  Frontend.ends c e = None ->
  trends (hooks (fst (Frontend.step env c e))) = trends (hooks c) /\
  lastUpdated (hooks (fst (Frontend.step env c e))) = lastUpdated (hooks c).
Proof.
  intros Hinv He. destruct e as [|i r now|].
  - destruct (timer c) as [p|] eqn:Hp.
    + rewrite (Frontend_tick_step env c Hinv) by (rewrite Hp; discriminate).
      cbv zeta. rewrite Frontend_started_run.
      destruct (mounted c && _); cbn [fst hooks trends lastUpdated]; auto.
    + unfold Frontend.step. rewrite Hp. auto.
  - destruct (Nat.lt_ge_cases i (List.length (pending c))) as [Hi|Hi];
      [rewrite (Frontend_ends_valid c i r now Hi) in He; discriminate|].
    rewrite (Frontend_settle_none env c i r now Hi). auto.
  - unfold Frontend.step, unmount. destruct (mounted c); auto.
Qed.

(** The items and the timestamp are those of the most recent success. *)
Lemma Frontend_exec_latest env es : forall c,
  Frontend_inv env c ->
  trends (hooks (Frontend.exec env c es)) =
    match latest (Frontend.outcomes env c es) with
    | Some (data, _) => data
    | None => trends (hooks c)
    end /\
  lastUpdated (hooks (Frontend.exec env c es)) =
    match latest (Frontend.outcomes env c es) with
    | Some (_, t) => Some t
    | None => lastUpdated (hooks c)
    end.
Proof.
  induction es as [|e es IH]; intros c Hinv; simpl; [auto|].
  destruct (IH _ (Frontend_step_inv _ _ e Hinv)) as [IHt IHl].
  fold (Frontend.exec env (fst (Frontend.step env c e)) es).
  rewrite IHt, IHl, latest_app.
  destruct (latest (Frontend.outcomes env (fst (Frontend.step env c e)) es))
    as [[data t]|]; [auto|].
  destruct (Frontend.ends c e) as [o|] eqn:He.
  - pose proof (Frontend_step_ends _ _ _ _ Hinv He) as H.
    destruct o; simpl.
    + destruct H as (H1 & _ & H3). auto.
    + rewrite H. auto.
  - destruct (Frontend_step_other _ _ _ Hinv He) as [H1 H2].
    rewrite H1, H2. simpl. auto.
Qed.

Lemma Part000_error_text_preferred (err : exn) :
  Part000.error_text err = preferred_message err.
Proof.
  unfold Part000.error_text, preferred_message, or_else.
  destruct (truthy (response_data_error err)) eqn:Hs.
  - rewrite Hs. reflexivity.
  - destruct (message err); reflexivity.
Qed.

Lemma Part000_cycle_run env (s : state) (net : settled) (now : Date) :
  run s (cycle (Part000.fetchTrends env) net now) =
  match Part000.cycle_outcome env net now with
  | Succeeded data t => mkState data false (VStr EmptyString) (Some t)
  | Failed err =>
      mkState (trends s) false (Part000.error_text err) (lastUpdated s)
  end.
Proof.
  destruct env as [[|a base]|]; try reflexivity.
  unfold Part000.cycle_outcome. simpl.
  destruct net as [data|err]; simpl; [|reflexivity].
  destruct (isArray data); reflexivity.
Qed.

Lemma Frontend_cycle_run captured env (s : state) (net : settled) (now : Date) :
  run s (cycle (Frontend.fetchTrends captured env) net now) =
  match Frontend.verdict net now with
  | Succeeded data t => mkState data false (VStr EmptyString) (Some t)
  | Failed err =>
      mkState (trends s) false (Frontend.error_text err) (lastUpdated s)
  end.
Proof.
  destruct captured, net; reflexivity.
Qed.

(** The component reached from mount by the events [es]. *)
Lemma Part000_reached_inv env es :
  Part000_inv env (Part000.exec (fst (Part000.mount env)) es).
Proof. apply Part000_exec_inv, Part000_mount_inv. Qed.

Lemma Frontend_reached_inv env es :
  Frontend_inv env (Frontend.exec env (fst (Frontend.mount env)) es).
Proof. apply Frontend_exec_inv, Frontend_mount_inv. Qed.

Lemma Part000_reached_latest env es :
  trends (hooks (Part000.exec (fst (Part000.mount env)) es)) =
    match latest (Part000.history env es) with
    | Some (data, _) => data
    | None => VArr []
    end /\
  lastUpdated (hooks (Part000.exec (fst (Part000.mount env)) es)) =
    option_map snd (latest (Part000.history env es)).
Proof.
  rewrite Part000_history_latest.
  destruct (Part000_exec_latest env es _ (Part000_mount_inv env)) as [Ht Hl].
  rewrite Ht, Hl.
  destruct (latest (Part000.outcomes (fst (Part000.mount env)) es))
    as [[data t]|]; simpl; [auto|].
  destruct env as [[|a base]|]; auto.
Qed.

Lemma Frontend_reached_latest env es :
  trends (hooks (Frontend.exec env (fst (Frontend.mount env)) es)) =
    match latest (Frontend.history env es) with
    | Some (data, _) => data
    | None => VArr []
    end /\
  lastUpdated (hooks (Frontend.exec env (fst (Frontend.mount env)) es)) =
    option_map snd (latest (Frontend.history env es)).
Proof.
  unfold Frontend.history.
  destruct (Frontend_exec_latest env es _ (Frontend_mount_inv env)) as [Ht Hl].
  rewrite Ht, Hl.
  destruct (latest (Frontend.outcomes env (fst (Frontend.mount env)) es))
    as [[data t]|]; simpl; auto.
Qed.

Lemma In_sets_loading (calls : list action) :
  In (setIsLoading true) calls -> existsb sets_loading calls = true.
Proof.
  intros H. apply existsb_exists. exists (setIsLoading true). auto.
Qed.

Lemma Frontend_step_sets_loading env c e :
  Frontend_inv env c ->
  In (setIsLoading true) (snd (Frontend.step env c e)) ->
  lastUpdated (hooks c) = None.
Proof.
  intros Hinv HIn. apply In_sets_loading in HIn.
  destruct e as [|i r now|].
  - destruct (timer c) as [p|] eqn:Hp.
    + rewrite (Frontend_tick_step env c Hinv) in HIn
        by (rewrite Hp; discriminate).
      cbv zeta in HIn.
      destruct (lastUpdated (hooks c)); [|reflexivity].
      destruct (mounted c && _) in HIn; discriminate.
    + unfold Frontend.step in HIn. rewrite Hp in HIn. discriminate.
  - destruct (Nat.lt_ge_cases i (List.length (pending c))) as [Hi|Hi].
    + rewrite (Frontend_settle_step env c i r now Hinv Hi) in HIn.
      cbv zeta in HIn.
      destruct r as [data|err]; destruct (mounted c);
        repeat match type of HIn with
               | context [if Frontend.throws ?s then _ else _] =>
                   destruct (Frontend.throws s)
               end; discriminate.
    + rewrite (Frontend_settle_none env c i r now Hi) in HIn. discriminate.
  - unfold Frontend.step, unmount in HIn. destruct (mounted c); discriminate.
Qed.
(** ** Facts about the rendered list *)





Section RenderedList.

Variable toLocaleTimeString : Date -> string.
Variable Number_toString : number -> string.




Lemma list_items_raw_entries (vs : list value) :
  flat_map list_items (map (fun v => Elem "li" [Expr v]) vs) =
  map (fun v => Elem "li" [Expr v]) vs.
Proof.
  induction vs as [|v vs IH]; [reflexivity|].
  cbn [map flat_map]. rewrite IH. reflexivity.
Qed.




Lemma Frontend_header_items (s : state) :
  list_items (Frontend.header toLocaleTimeString s) = [].
Proof. unfold Frontend.header. destruct (lastUpdated s); reflexivity. Qed.

Lemma Part000_header_renderable (s : state) :
  renderable (Part000.header toLocaleTimeString s) = true.
Proof. unfold Part000.header. destruct (lastUpdated s); reflexivity. Qed.

Lemma Frontend_header_renderable (s : state) :
  renderable (Frontend.header toLocaleTimeString s) = true.
Proof. unfold Frontend.header. destruct (lastUpdated s); reflexivity. Qed.

(** The render is the header and the body, unless the component function
    throws or React refuses a child of the body. *)
Lemma Part000_TrendingPosts_body (s : state) :
  Part000.TrendingPosts toLocaleTimeString Number_toString s =
  match Part000.body Number_toString s with
  | Some b =>
      if renderable b
      then Some (Elem "div" [Part000.header toLocaleTimeString s; b])
      else None
  | None => None
  end.
Proof.
  unfold Part000.TrendingPosts, Part000.throws.
  destruct (Part000.body Number_toString s) as [b|]; [|reflexivity].
  destruct (renderable b); reflexivity.
Qed.

Lemma Frontend_TrendingPosts_body (s : state) :
  Frontend.TrendingPosts toLocaleTimeString s =
  match Frontend.body s with
  | Some b =>
      if renderable b
      then Some (Elem "div" [Frontend.header toLocaleTimeString s; b])
      else None
  | None => None
  end.
Proof.
  unfold Frontend.TrendingPosts, Frontend.throws.
  destruct (Frontend.body s) as [b|]; [|reflexivity].
  destruct (renderable b); reflexivity.
Qed.


Lemma raw_entries_renderable (vs : list value) :
  forallb renderable (map (fun v => Elem "li" [Expr v]) vs) =
  forallb valid_child vs.
Proof.
  induction vs as [|v vs IH]; [reflexivity|].
  cbn [map forallb]. rewrite IH.
  change (renderable (Elem "li" [Expr v])) with (valid_child v && true).
  rewrite andb_true_r. reflexivity.
Qed.


End RenderedList.

(** ** Facts about messages, results and counts *)

Lemma Part000_error_text_truthy (err : exn) :
  truthy (Part000.error_text err) = true.
Proof.
  unfold Part000.error_text, or_else.
  destruct (truthy (response_data_error err)) eqn:Hs.
  - rewrite Hs. assumption.
  - destruct (message err); reflexivity.
Qed.

Lemma Frontend_error_text_truthy (err : exn) :
  truthy (Frontend.error_text err) = true.
Proof.
  unfold Frontend.error_text, or_else.
  destruct (truthy (response_data_error err)) eqn:Hs; [assumption|reflexivity].
Qed.

Lemma last_success_app (h k : list cycle_result) :
  last_success (h ++ k) =
  match last_success k with
  | Some x => Some x
  | None => last_success h
  end.
Proof.
  induction h as [|o h IH]; simpl.
  - destruct (last_success k); reflexivity.
  - rewrite IH. destruct (last_success k); reflexivity.
Qed.

Lemma settles_valid c i r now :
  i < List.length (pending c) ->
  settles c (Settle i r now) = Some (classify r now).
Proof.
  intros Hi. simpl. destruct (Nat.ltb_spec i (List.length (pending c)));
    [reflexivity | lia].
Qed.

Lemma Part000_ends_valid c i r now :
  i < List.length (pending c) ->
  Part000.ends c (Settle i r now) = Some (Part000.verdict r now).
Proof.
  intros Hi. simpl. destruct (nth_error (pending c) i) eqn:Hk; [reflexivity|].
  apply nth_error_None in Hk. lia.
Qed.

(** The successes that the revision of [unnamed/part_000] counts are those of
    the specification. *)
Lemma Part000_latest_results (es : list event) : forall c,
  latest (Part000.outcomes c es) = last_success (results Part000.step c es).
Proof.
  induction es as [|e es IH]; intros c; [reflexivity|].
  cbn [Part000.outcomes results]. rewrite latest_app, last_success_app, IH.
  destruct (last_success (results Part000.step (fst (Part000.step c e)) es));
    [reflexivity|].
  destruct e as [|i r now|]; [| |reflexivity].
  - simpl. destruct (timer c) as [[calls|before url k]|]; reflexivity.
  - destruct (Nat.lt_ge_cases i (List.length (pending c))) as [Hi|Hi].
    + rewrite (Part000_ends_valid c i r now Hi), (settles_valid c i r now Hi).
      destruct r as [data|err]; simpl; [|reflexivity].
      destruct (isArray data); reflexivity.
    + simpl. pose proof Hi as Hn. apply nth_error_None in Hn. rewrite Hn.
      destruct (Nat.ltb_spec i (List.length (pending c))); [lia|reflexivity].
Qed.

Lemma count_app {A : Type} (p : A -> bool) (l k : list A) :
  count p (l ++ k) = count p l + count p k.
Proof. unfold count. rewrite filter_app. apply length_app. Qed.

Lemma Part000_resume_requests (r : settled) (now : Date) :
  count is_request (Part000.resume r now) = 0 /\
  count is_setInterval (Part000.resume r now) = 0.
Proof.
  destruct r as [data|err]; simpl; [|split; reflexivity].
  destruct (isArray data); split; reflexivity.
Qed.


Section RenderedFrontend.

Variable toLocaleTimeString : Date -> string.

(** The list of [frontend/src/components/TrendingPosts.js]: one entry per
    element, holding the element; React refuses it when an element is not a
    valid child. *)
Lemma Frontend_TrendingPosts_list (s : state) (vs : list value) :
  isLoading s = false -> truthy (error s) = false -> trends s = VArr vs ->
  Frontend.TrendingPosts toLocaleTimeString s =
  if forallb valid_child vs
  then Some (Elem "div"
               [Frontend.header toLocaleTimeString s;
                Elem "ul" (map (fun v => Elem "li" [Expr v]) vs)])
  else None.
Proof.
  intros Hl He Ht. rewrite Frontend_TrendingPosts_body.
  unfold Frontend.body. rewrite Hl, He, Ht.
  change (renderable (Elem "ul" (map (fun v => Elem "li" [Expr v]) vs)))
    with (forallb renderable (map (fun v => Elem "li" [Expr v]) vs)).
  rewrite raw_entries_renderable. reflexivity.
Qed.

End RenderedFrontend.


(** * The properties of the specification *)

(** C1, as amended.  In the revision of [unnamed/part_000], every fetch cycle
    that finds [REACT_APP_BACKEND_URL] unset (or empty) ends in an error state
    whose message is "REACT_APP_BACKEND_URL not set in .env", without any
    HTTP request and without suspending; this holds for the cycle started at
    mount.  The revision of [frontend/src/components/TrendingPosts.js] has a
    default instead: with the configuration unset it requests
    [http://127.0.0.1:5001/api/trending]. *)
Theorem C1_missing_configuration :
  (forall (s : state) (net : settled) (now : Date),
      error_without_request s (cycle (Part000.fetchTrends None) net now) /\
      error_without_request s
        (cycle (Part000.fetchTrends (Some EmptyString)) net now) /\
      run s (cycle (Part000.fetchTrends None) net now) =
        mkState (trends s) false
                (VStr "REACT_APP_BACKEND_URL not set in .env")
                (lastUpdated s)) /\
  (existsb is_request (snd (Part000.mount None)) = false /\
   pending (fst (Part000.mount None)) = [] /\
   hooks (fst (Part000.mount None)) =
     mkState (VArr []) false (VStr "REACT_APP_BACKEND_URL not set in .env")
             None) /\
  (forall captured : option Date,
      In (axios_get "http://127.0.0.1:5001/api/trending")
         (started (Frontend.fetchTrends captured None)) /\
      In (axios_get "http://127.0.0.1:5001/api/trending")
         (started (Frontend.fetchTrends captured (Some EmptyString)))).
Proof.
  split; [|split].
  - intros s net now. unfold error_without_request. simpl. auto.
  - simpl. auto.
  - intros [d|]; simpl; auto.
Qed.

(** C1 fails on [frontend/src/components/TrendingPosts.js]: in the first
    cycle after mount, with the configuration unset and a backend that
    answers with an empty list, the request is issued and no error state
    results. *)
Lemma C1_counterexample :
  ~ error_without_request initial
      (cycle (Frontend.fetchTrends None None) (Fulfilled (VArr [])) 0%Z).
Proof.
  unfold error_without_request. simpl. intros [H _]. discriminate.
Qed.

(** C2, as amended.  In the revision of [unnamed/part_000], a cycle whose
    request succeeds with a payload that is not an array ends in an error
    state with the message "Unexpected backend response", and the items and
    the timestamp are what they were before the cycle.  The revision of
    [frontend/src/components/TrendingPosts.js] does not validate: it stores
    the payload as the items, sets the timestamp and leaves the error message
    empty, and the render of that state throws. *)
Theorem C2_non_array_payload
  (a : ascii) (base : string) (captured : option Date) (env : option string)
  (toLocaleTimeString : Date -> string)
  (s : state) (data : value) (now : Date) :
  isArray data = false ->
  (let calls :=
     cycle (Part000.fetchTrends (Some (String a base))) (Fulfilled data) now in
   error_keeping_items s calls /\
   In (axios_get (String a base ++ "/api/trending")%string) calls /\
   run s calls =
     mkState (trends s) false (VStr "Unexpected backend response")
             (lastUpdated s)) /\
  (let calls := cycle (Frontend.fetchTrends captured env) (Fulfilled data) now in
   run s calls = mkState data false (VStr EmptyString) (Some now) /\
   Frontend.TrendingPosts toLocaleTimeString (run s calls) = None).
Proof.
  intros Hd. split.
  - assert (Ho : Part000.cycle_outcome (Some (String a base)) (Fulfilled data)
                                        now
                 = Failed (Error "Unexpected backend response")).
    { unfold Part000.cycle_outcome. simpl. rewrite Hd. reflexivity. }
    cbn zeta. unfold error_keeping_items.
    rewrite Part000_cycle_run, Ho. simpl. repeat split; auto.
  - cbn zeta. rewrite Frontend_cycle_run. simpl. split; [reflexivity|].
    rewrite Frontend_TrendingPosts_body. unfold Frontend.body. simpl.
    destruct data; try reflexivity. discriminate.
Qed.

(** The payload [{"status":"ok"}] on [unnamed/part_000], from the initial
    state. *)
Lemma C2_witness :
  error_keeping_items initial
    (cycle (Part000.fetchTrends (Some "http://api.test"))
           (Fulfilled (VObj [("status", VStr "ok")])) 1000%Z).
Proof.
  apply (C2_non_array_payload "h"%char "ttp://api.test" None None
           (fun _ => "10:00:00") initial
           (VObj [("status", VStr "ok")]) 1000%Z).
  reflexivity.
Defined.

(** C2 fails on [frontend/src/components/TrendingPosts.js]: after a cycle
    whose response body is an object, no error is set and the items are the
    object. *)
Lemma C2_counterexample :
  ~ error_keeping_items initial
      (cycle (Frontend.fetchTrends None (Some "http://api.test"))
             (Fulfilled (VObj [("status", VStr "ok")])) 1000%Z).
Proof.
  unfold error_keeping_items. simpl. intros [H _]. discriminate.
Qed.

(** C3, as amended.  In the revision of [unnamed/part_000], when a pending
    request settles in failure (it is rejected, or its body is not an array)
    after some cycle has succeeded, the items after it are the payload of the
    most recent successful cycle, and the error message is set: to the
    preferred message of the rejection, or to "Unexpected backend response".
    In the revision of [frontend/src/components/TrendingPosts.js] this holds
    for a rejected request, where the message is the server-supplied error
    text or else "Could not load trends." and the items are the body of the
    most recent fulfilled request; a fulfilled request whose body is not an
    array is not a failure there: its body replaces the items and the
    timestamp is set. *)
Theorem C3_stale_items_on_failure
  (env : option string) (es : list event) (i : nat)
  (r : settled) (err : exn) (payload : value) (now : Date)
  (data : value) (t : Date) :
  (let c := Part000.exec (fst (Part000.mount env)) es in
   i < List.length (pending c) ->
   failed r = true ->
   last_success (results Part000.step (fst (Part000.mount env)) es)
   = Some (data, t) ->
   let s' := hooks (fst (Part000.step c (Settle i r now))) in
   stale_on_failure data s' /\
   error s' = match r with
              | Rejected err' => preferred_message err'
              | Fulfilled _ => VStr "Unexpected backend response"
              end) /\
  (let c := Frontend.exec env (fst (Frontend.mount env)) es in
   i < List.length (pending c) ->
   latest (Frontend.history env es) = Some (data, t) ->
   let s' := hooks (fst (Frontend.step env c (Settle i (Rejected err) now))) in
   stale_on_failure data s' /\
   error s' = if truthy (response_data_error err)
              then response_data_error err
              else VStr "Could not load trends.") /\
  (let c := Frontend.exec env (fst (Frontend.mount env)) es in
   i < List.length (pending c) ->
   let s' := hooks (fst (Frontend.step env c (Settle i (Fulfilled payload) now))) in
   trends s' = payload /\ lastUpdated s' = Some now).
Proof.
  split; [|split]; cbn zeta.
  - intros Hi Hf Hl.
    pose proof (Part000_reached_inv env es) as Hinv.
    assert (He : exists err',
               Part000.ends (Part000.exec (fst (Part000.mount env)) es)
                            (Settle i r now) = Some (Failed err') /\
               Part000.error_text err' =
               match r with
               | Rejected err'' => preferred_message err''
               | Fulfilled _ => VStr "Unexpected backend response"
               end).
    { rewrite (Part000_ends_valid _ i r now Hi).
      destruct r as [d|err']; simpl in *.
      - destruct (isArray d); [discriminate|].
        eexists. split; reflexivity.
      - eexists. split; [reflexivity|]. apply Part000_error_text_preferred. }
    destruct He as (err' & He & Hmsg).
    rewrite (Part000_step_ends env _ _ _ Hinv He).
    unfold stale_on_failure. cbn [trends error].
    rewrite Part000_error_text_truthy, Hmsg.
    rewrite (proj1 (Part000_reached_latest env es)).
    rewrite Part000_history_latest, Part000_latest_results, Hl. auto.
  - intros Hi Hl.
    pose proof (Frontend_reached_inv env es) as Hinv.
    pose proof (Frontend_step_ends env _ _ _ Hinv
                  (Frontend_ends_valid _ i (Rejected err) now Hi)) as H.
    cbn [Frontend.verdict] in H. rewrite H.
    unfold stale_on_failure. cbn [trends error].
    rewrite Frontend_error_text_truthy.
    rewrite (proj1 (Frontend_reached_latest env es)), Hl. auto.
  - intros Hi.
    pose proof (Frontend_reached_inv env es) as Hinv.
    pose proof (Frontend_step_ends env _ _ _ Hinv
                  (Frontend_ends_valid _ i (Fulfilled payload) now Hi)) as H.
    cbn [Frontend.verdict] in H. tauto.
Qed.

(** On [unnamed/part_000] the first cycle succeeds with one item, the timer
    starts a second cycle, and its request is rejected with "Network Error";
    on [frontend/src/components/TrendingPosts.js] the first cycle succeeds
    with a list of strings, and the request of the cycle that the success
    starts is rejected. *)
Lemma C3_witness :
  let env := Some "http://api.test" in
  let items := VArr [VObj [("text", VStr "hello");
                           ("sentiment", VStr "positive")]] in
  let tags := VArr [VStr "hello"] in
  let down := Rejected (mkExn "Network Error" None) in
  stale_on_failure items
    (hooks (fst (Part000.step
       (Part000.exec (fst (Part000.mount env))
          [Settle 0 (Fulfilled items) 1000%Z; Tick])
       (Settle 0 down 2000%Z)))) /\
  stale_on_failure tags
    (hooks (fst (Frontend.step env
       (Frontend.exec env (fst (Frontend.mount env))
          [Settle 0 (Fulfilled tags) 1000%Z])
       (Settle 0 down 2000%Z)))).
Proof.
  intros env items tags down.
  destruct (C3_stale_items_on_failure env
              [Settle 0 (Fulfilled items) 1000%Z; Tick] 0 down
              (mkExn "Network Error" None) VNull 2000%Z items 1000%Z)
    as (HP & _ & _).
  destruct (C3_stale_items_on_failure env
              [Settle 0 (Fulfilled tags) 1000%Z] 0 down
              (mkExn "Network Error" None) VNull 2000%Z tags 1000%Z)
    as (_ & HF & _).
  split.
  - apply HP; [simpl; lia | reflexivity | reflexivity].
  - apply HF; [simpl; lia | reflexivity].
Defined.

(** C3 fails on [frontend/src/components/TrendingPosts.js] for a validation
    failure: after a success with ["hello"], the request of the next cycle is
    fulfilled with the body [{"status":"ok"}]; the items become that object
    and no error message is set. *)
Lemma C3_counterexample :
  let env := Some "http://api.test" in
  let es := [Settle 0 (Fulfilled (VArr [VStr "hello"])) 1000%Z] in
  let c := Frontend.exec env (fst (Frontend.mount env)) es in
  let r := Fulfilled (VObj [("status", VStr "ok")]) in
  0 < List.length (pending c) /\
  failed r = true /\
  last_success (results (Frontend.step env) (fst (Frontend.mount env)) es)
  = Some (VArr [VStr "hello"], 1000%Z) /\
  ~ stale_on_failure (VArr [VStr "hello"])
      (hooks (fst (Frontend.step env c (Settle 0 r 2000%Z)))).
Proof.
  cbn zeta. split; [simpl; lia|]. split; [reflexivity|].
  split; [reflexivity|].
  unfold stale_on_failure. simpl. intros [H _]. discriminate.
Qed.

(** C4, as amended.  In the revision of [unnamed/part_000], every failing
    cycle (missing configuration, rejected request, payload that is not an
    array) leaves as error message the server-supplied error text when there
    is one, else the exception's own message, else "Could not load trends.".
    In the revision of [frontend/src/components/TrendingPosts.js] a failing
    cycle leaves the server-supplied error text when there is one, else
    "Could not load trends."; the exception's own message is not used. *)
Theorem C4_error_message_preference
  (env : option string) (captured : option Date)
  (s : state) (net : settled) (now : Date) (err : exn) :
  (Part000.cycle_outcome env net now = Failed err ->
   error (run s (cycle (Part000.fetchTrends env) net now)) =
   preferred_message err) /\
  (Frontend.verdict net now = Failed err ->
   error (run s (cycle (Frontend.fetchTrends captured env) net now)) =
   if truthy (response_data_error err) then response_data_error err
   else VStr "Could not load trends.").
Proof.
  split; intros H.
  - rewrite Part000_cycle_run, H. simpl. apply Part000_error_text_preferred.
  - rewrite Frontend_cycle_run, H. reflexivity.
Qed.

(** The scenario of the specification: status 500 with the body
    [{"error":"db down"}]. *)
Lemma C4_witness :
  error (run initial
           (cycle (Part000.fetchTrends (Some "http://api.test"))
                  (Rejected (mkExn "Request failed with status code 500"
                                   (Some (VObj [("error", VStr "db down")]))))
                  1000%Z)) = VStr "db down" /\
  error (run initial
           (cycle (Frontend.fetchTrends None (Some "http://api.test"))
                  (Rejected (mkExn "Request failed with status code 500"
                                   (Some (VObj [("error", VStr "db down")]))))
                  1000%Z)) = VStr "db down".
Proof.
  destruct (C4_error_message_preference (Some "http://api.test") None initial
              (Rejected (mkExn "Request failed with status code 500"
                               (Some (VObj [("error", VStr "db down")]))))
              1000%Z
              (mkExn "Request failed with status code 500"
                     (Some (VObj [("error", VStr "db down")]))))
    as [HP HF].
  split; [apply HP; reflexivity | apply HF; reflexivity].
Defined.

(** C4 fails on [frontend/src/components/TrendingPosts.js]: when the request
    is rejected without a response, with the message "Network Error", the
    error message becomes the generic fallback. *)
Lemma C4_counterexample :
  error (run initial
           (cycle (Frontend.fetchTrends None (Some "http://api.test"))
                  (Rejected (mkExn "Network Error" None)) 1000%Z))
  <> preferred_message (mkExn "Network Error" None).
Proof. simpl. discriminate. Qed.

(** C5, as amended.  In the revision of
    [frontend/src/components/TrendingPosts.js], the calls made by any event of
    the mounted component set [isLoading] to true only when no fetch has
    succeeded before, and every cycle starts by clearing the error message.
    In the revision of [unnamed/part_000], every cycle starts by setting
    [isLoading] to true and clearing the error message, whether or not a
    fetch has succeeded before. *)
Theorem C5_cycle_start
  (env : option string) (captured : option Date)
  (s : state) (es : list event) (e : event) :
  loading_only_before_success (Frontend.history env es)
    (snd (Frontend.step env
            (Frontend.exec env (fst (Frontend.mount env)) es) e)) /\
  started (Frontend.fetchTrends captured env) =
    match captured with
    | None => [setIsLoading true]
    | Some _ => []
    end ++ [setError (VStr EmptyString);
            axios_get (Frontend.apiBase env ++ "/api/trending")%string] /\
  error (run s (started (Frontend.fetchTrends captured env))) = VStr EmptyString /\
  firstn 2 (started (Part000.fetchTrends env)) =
    [setIsLoading true; setError (VStr EmptyString)].
Proof.
  split; [|split; [|split]].
  - intros HIn.
    apply Frontend_step_sets_loading in HIn; [|apply Frontend_reached_inv].
    rewrite (proj2 (Frontend_reached_latest env es)) in HIn.
    destruct (latest (Frontend.history env es)); [discriminate|reflexivity].
  - destruct captured; reflexivity.
  - rewrite Frontend_started_run. reflexivity.
  - destruct env as [[|a base]|]; reflexivity.
Qed.

(** After a first cycle that failed, the cycle started by the timer tick
    sets [isLoading] to true, and indeed no fetch has succeeded. *)
Lemma C5_witness :
  latest (Frontend.history (Some "http://api.test")
            [Settle 0 (Rejected (mkExn "Network Error" None)) 1000%Z]) = None.
Proof.
  apply (proj1 (C5_cycle_start (Some "http://api.test") None initial
                  [Settle 0 (Rejected (mkExn "Network Error" None)) 1000%Z]
                  Tick)).
  simpl. left. reflexivity.
Defined.

(** C5 fails on [unnamed/part_000]: after the first cycle has succeeded, the
    cycle started by the next timer tick sets [isLoading] to true. *)
Lemma C5_counterexample :
  ~ loading_only_before_success
      (Part000.history (Some "http://api.test")
         [Settle 0 (Fulfilled (VArr [])) 1000%Z])
      (snd (Part000.step
              (Part000.exec (fst (Part000.mount (Some "http://api.test")))
                 [Settle 0 (Fulfilled (VArr [])) 1000%Z])
              Tick)).
Proof.
  unfold loading_only_before_success. simpl. intros H.
  assert (Hl : Some (VArr [], 1000%Z) = None) by (apply H; left; reflexivity).
  discriminate.
Qed.

(** C6.  In both revisions every fetch cycle ends with [isLoading] false,
    whatever its outcome: for a cycle run on its own from any state, and for
    every event that ends a cycle of the mounted component. *)
Theorem C6_loading_cleared
  (env : option string) (captured : option Date)
  (s : state) (net : settled) (now : Date) (es : list event) (e : event) :
  isLoading (run s (cycle (Part000.fetchTrends env) net now)) = false /\
  isLoading (run s (cycle (Frontend.fetchTrends captured env) net now)) = false /\
  (let c := Part000.exec (fst (Part000.mount env)) es in
   Part000.ends c e <> None ->
   isLoading (hooks (fst (Part000.step c e))) = false) /\
  (let c := Frontend.exec env (fst (Frontend.mount env)) es in
   Frontend.ends c e <> None ->
   isLoading (hooks (fst (Frontend.step env c e))) = false).
Proof.
  split; [|split; [|split]].
  - rewrite Part000_cycle_run.
    destruct (Part000.cycle_outcome env net now); reflexivity.
  - rewrite Frontend_cycle_run.
    destruct (Frontend.verdict net now); reflexivity.
  - cbn zeta. intros He.
    destruct (Part000.ends (Part000.exec (fst (Part000.mount env)) es) e)
      as [o|] eqn:Ho; [|congruence].
    rewrite (Part000_step_ends env _ _ _ (Part000_reached_inv env es) Ho).
    destruct o; reflexivity.
  - cbn zeta. intros He.
    destruct (Frontend.ends (Frontend.exec env (fst (Frontend.mount env)) es) e)
      as [o|] eqn:Ho; [|congruence].
    pose proof (Frontend_step_ends env _ _ _ (Frontend_reached_inv env es) Ho)
      as H.
    destruct o; [tauto | rewrite H; reflexivity].
Qed.

(** Two overlapping cycles: the second one succeeds, then the first one is
    rejected. *)
Lemma C6_witness :
  let es := [Tick; Settle 1 (Fulfilled (VArr [])) 1000%Z] in
  let e := Settle 0 (Rejected (mkExn "timeout of 0ms exceeded" None)) 2000%Z in
  isLoading (hooks (fst (Part000.step
      (Part000.exec (fst (Part000.mount (Some "http://api.test"))) es) e)))
  = false /\
  isLoading (hooks (fst (Frontend.step None
      (Frontend.exec None (fst (Frontend.mount None)) es) e)))
  = false.
Proof.
  intros es e.
  destruct (C6_loading_cleared (Some "http://api.test") None initial
              (Fulfilled (VArr [])) 0%Z es e) as (_ & _ & HP & _).
  destruct (C6_loading_cleared None None initial
              (Fulfilled (VArr [])) 0%Z es e) as (_ & _ & _ & HF).
  split; [apply HP; discriminate | apply HF; discriminate].
Defined.




(** The scenario of the specification, on [unnamed/part_000]: base URL
    [http://api.test], response
    [[{"text":"hello","sentiment":"positive","score":0.87}]]. *)
Example Part000_scenario_hello :
  option_map displayed
    (Part000.TrendingPosts (fun _ => "10:00:00") (fun _ => "NaN")
       (run initial
          (cycle (Part000.fetchTrends (Some "http://api.test"))
             (Fulfilled
                (VArr [VObj [("text", VStr "hello");
                             ("sentiment", VStr "positive");
                             ("score",
                              VNum (Finite (7836263351624663
                                            # 9007199254740992)%Q))]]))
             1000%Z)))
  = Some ["Live Posts from X"; "Updated at: "; "10:00:00";
          "Sentiment:"; " "; "positive"; "hello"; "Score: "; "0.87"].
Proof. reflexivity. Qed.

(** C8, as amended.  In the revision of [unnamed/part_000], the render of a
    state that is neither loading nor in error and whose items are the empty
    array, such as the state left by a cycle that succeeded with an empty
    array, is the header followed by "No trending posts found.", and the
    error message of that state is empty.  The revision of
    [frontend/src/components/TrendingPosts.js] has no placeholder: it renders
    the header followed by an empty list. *)
Theorem C8_empty_placeholder
  (toLocaleTimeString : Date -> string) (Number_toString : number -> string)
  (a : ascii) (base : string) (captured : option Date) (env : option string)
  (s : state) (now : Date) :
  (let s' := run s (cycle (Part000.fetchTrends (Some (String a base)))
                          (Fulfilled (VArr [])) now) in
   shows_placeholder (Part000.TrendingPosts toLocaleTimeString Number_toString s') /\
   Part000.TrendingPosts toLocaleTimeString Number_toString s' =
     Some (Elem "div" [Part000.header toLocaleTimeString s';
                       Elem "p" [Text "No trending posts found."]]) /\
   error s' = VStr EmptyString) /\
  (isLoading s = false -> truthy (error s) = false -> trends s = VArr [] ->
   Part000.TrendingPosts toLocaleTimeString Number_toString s =
     Some (Elem "div" [Part000.header toLocaleTimeString s;
                       Elem "p" [Text "No trending posts found."]])) /\
  (let s' := run s (cycle (Frontend.fetchTrends captured env)
                          (Fulfilled (VArr [])) now) in
   Frontend.TrendingPosts toLocaleTimeString s' =
     Some (Elem "div" [Frontend.header toLocaleTimeString s';
                       Elem "ul" []])).
Proof.
  split; [|split].
  - cbn zeta. rewrite Part000_cycle_run.
    change (Part000.cycle_outcome (Some (String a base)) (Fulfilled (VArr [])) now)
      with (Succeeded (VArr []) now).
    cbn iota. repeat split.
    eexists. split; [reflexivity|]. simpl. auto 10.
  - intros Hl He Ht. rewrite Part000_TrendingPosts_body. unfold Part000.body.
    rewrite Hl, He, Ht. reflexivity.
  - cbn zeta. rewrite Frontend_cycle_run. reflexivity.
Qed.

(** The state left by a success with an empty array at time 1000. *)
Lemma C8_witness :
  Part000.TrendingPosts (fun _ => "10:00:00") (fun _ => "NaN")
    (mkState (VArr []) false (VStr EmptyString) (Some 1000%Z)) =
  Some (Elem "div"
          [Part000.header (fun _ => "10:00:00")
             (mkState (VArr []) false (VStr EmptyString) (Some 1000%Z));
           Elem "p" [Text "No trending posts found."]]).
Proof.
  apply (proj1 (proj2 (C8_empty_placeholder (fun _ => "10:00:00")
                         (fun _ => "NaN") "h"%char "ttp://api.test" None None
                         (mkState (VArr []) false (VStr EmptyString)
                                  (Some 1000%Z))
                         1000%Z))); reflexivity.
Defined.

(** C8 fails on [frontend/src/components/TrendingPosts.js]: after a cycle
    that succeeded with an empty array the render shows the header and an
    empty list, and no placeholder. *)
Lemma C8_counterexample :
  ~ shows_placeholder
      (Frontend.TrendingPosts (fun _ => "10:00:00")
         (run initial
            (cycle (Frontend.fetchTrends None (Some "http://api.test"))
                   (Fulfilled (VArr [])) 1000%Z))).
Proof.
  intros (e & He & Hin). simpl in He. inversion He; subst e; clear He.
  simpl in Hin. destruct Hin as [H|[H|[H|[]]]]; discriminate.
Qed.



(** C10, as amended.  In the revision of [unnamed/part_000], [lastUpdated] is
    assigned on the success path only: a cycle leaves it unchanged when the
    configuration is missing, when the request is rejected and when the body
    is not an array, and sets it to the time of completion otherwise; for the
    mounted component it is, after any events, the time of the most recent
    successful cycle, and unset when none has succeeded.  In the revision of
    [frontend/src/components/TrendingPosts.js] it is assigned whenever the
    request is fulfilled, also when the body is not an array and when the
    configuration is unset (the default URL is used): it is the time of the
    most recent fulfilled request.  In both, the header shows "Updated at"
    exactly when it is set. *)
Theorem C10_lastUpdated_tracks_success
  (env : option string) (captured : option Date)
  (toLocaleTimeString : Date -> string)
  (s : state) (net : settled) (now : Date) (es : list event) :
  lastUpdated (run s (cycle (Part000.fetchTrends env) net now)) =
    match (if configured env then classify net now else ConfigError) with
    | Success _ t => Some t
    | _ => lastUpdated s
    end /\
  lastUpdated (hooks (Part000.exec (fst (Part000.mount env)) es)) =
    option_map snd
      (last_success (results Part000.step (fst (Part000.mount env)) es)) /\
  lastUpdated (run s (cycle (Frontend.fetchTrends captured env) net now)) =
    match net with
    | Fulfilled _ => Some now
    | Rejected _ => lastUpdated s
    end /\
  lastUpdated (hooks (Frontend.exec env (fst (Frontend.mount env)) es)) =
    option_map snd (latest (Frontend.history env es)) /\
  displayed (Part000.header toLocaleTimeString s) =
    "Live Posts from X" ::
    match lastUpdated s with
    | Some d => ["Updated at: "; toLocaleTimeString d]
    | None => []
    end /\
  displayed (Frontend.header toLocaleTimeString s) =
    "Live Posts from X" ::
    match lastUpdated s with
    | Some d => ["Updated at: "; toLocaleTimeString d]
    | None => []
    end.
Proof.
  repeat split.
  - destruct env as [[|a base]|]; try reflexivity.
    destruct net as [data|err]; simpl; [|reflexivity].
    destruct (isArray data); reflexivity.
  - rewrite (proj2 (Part000_reached_latest env es)).
    rewrite Part000_history_latest, Part000_latest_results. reflexivity.
  - rewrite Frontend_cycle_run. destruct net; reflexivity.
  - apply Frontend_reached_latest.
  - unfold Part000.header. destruct (lastUpdated s); reflexivity.
  - unfold Frontend.header. destruct (lastUpdated s); reflexivity.
Qed.

(** On [unnamed/part_000]: a first cycle succeeds at time 1000, then a cycle
    whose body is [{"status":"ok"}] ends at time 2000; the timestamp is still
    1000. *)
Lemma C10_witness :
  lastUpdated
    (hooks (Part000.exec (fst (Part000.mount (Some "http://api.test")))
              [Settle 0 (Fulfilled (VArr [])) 1000%Z; Tick;
               Settle 0 (Fulfilled (VObj [("status", VStr "ok")])) 2000%Z]))
  = Some 1000%Z.
Proof.
  exact (proj1 (proj2 (C10_lastUpdated_tracks_success
                         (Some "http://api.test") None (fun _ => "10:00:00")
                         initial (Fulfilled (VArr [])) 0%Z
                         [Settle 0 (Fulfilled (VArr [])) 1000%Z; Tick;
                          Settle 0 (Fulfilled (VObj [("status", VStr "ok")]))
                                 2000%Z]))).
Defined.

(** C10 fails on [frontend/src/components/TrendingPosts.js] for a validation
    failure: a cycle whose body is [{"status":"ok"}] sets the timestamp. *)
Lemma C10_counterexample :
  failed (Fulfilled (VObj [("status", VStr "ok")])) = true /\
  ~ timestamp_kept initial
      (run initial
         (cycle (Frontend.fetchTrends None (Some "http://api.test"))
                (Fulfilled (VObj [("status", VStr "ok")])) 1000%Z)).
Proof.
  split; [reflexivity|]. unfold timestamp_kept. simpl. discriminate.
Qed.

(** * Further properties of the two revisions *)

(** ** Failures are visible *)



(** ** The items of [unnamed/part_000] are always an array *)

Lemma latest_In (h : list outcome) (data : value) (t : Date) :
  latest h = Some (data, t) -> In (Succeeded data t) h.
Proof.
  induction h as [|o h IH]; simpl; [discriminate|].
  destruct (latest h) as [x|].
  - intros H. right. apply IH. assumption.
  - destruct o as [d t'|err]; [|discriminate].
    intros H. inversion H; subst. left. reflexivity.
Qed.

Lemma Part000_ends_array (c : component) (e : event) (data : value) (t : Date) :
  Part000.ends c e = Some (Succeeded data t) -> isArray data = true.
Proof.
  destruct e as [|i r now|]; simpl; try discriminate.
  - destruct (timer c) as [[calls|before url k]|]; simpl; discriminate.
  - destruct (nth_error (pending c) i); [|discriminate].
    destruct r as [d|err]; simpl; [|discriminate].
    destruct (isArray d) eqn:Hd; [|discriminate].
    intros H. inversion H; subst. assumption.
Qed.

Lemma Part000_outcomes_arrays (es : list event) : forall c data t,
  In (Succeeded data t) (Part000.outcomes c es) -> isArray data = true.
Proof.
  induction es as [|e es IH]; intros c data t H; simpl in H; [contradiction|].
  apply in_app_or in H. destruct H as [H|H]; [|eapply IH; eassumption].
  destruct (Part000.ends c e) as [o|] eqn:He; simpl in H; [|contradiction].
  destruct H as [H|[]]. subst o. eapply Part000_ends_array; eassumption.
Qed.

(** X2.  In [unnamed/part_000] the cell [trends] holds an array after any
    sequence of events, whatever the backend answered: [trends.length] and
    [trends.map] in the render never meet another kind of value. *)
Theorem Part000_trends_always_array (env : option string) (es : list event) :
  isArray (trends (hooks (Part000.exec (fst (Part000.mount env)) es))) = true.
Proof.
  rewrite (proj1 (Part000_reached_latest env es)).
  destruct (latest (Part000.history env es)) as [[data t]|] eqn:Hl;
    [|reflexivity].
  rewrite Part000_history_latest in Hl. apply latest_In in Hl.
  eapply Part000_outcomes_arrays; eassumption.
Qed.

(** ** [isLoading] and the pending requests *)

Lemma Part000_step_loading env c e :
  Part000_inv env c ->
  (isLoading (hooks c) = true -> pending c <> []) ->
  isLoading (hooks (fst (Part000.step c e))) = true ->
  pending (fst (Part000.step c e)) <> [].
Proof.
  intros (Hs & Ht & Hm) Hc. destruct e as [|i r now|]; simpl.
  - destruct (timer c) as [p|] eqn:Hp; [|exact Hc].
    destruct Ht as [Ht|Ht]; [discriminate|]. inversion Ht; subst p.
    unfold invoke; cbn [fst hooks pending].
    rewrite Part000_started_run.
    destruct env as [[|a base]|]; simpl; try discriminate.
    intros _ H. apply app_eq_nil in H. destruct H; discriminate.
  - unfold settle. destruct (nth_error (pending c) i) as [k|] eqn:Hk;
      [|exact Hc].
    apply (nth_error_Forall _ _ _ _ Hs) in Hk. subst k.
    cbn [fst hooks]. rewrite Part000_resume_run.
    destruct (Part000.verdict r now); discriminate.
  - unfold unmount. destruct (mounted c); exact Hc.
Qed.

Lemma Frontend_step_loading env c e :
  Frontend_inv env c ->
  (isLoading (hooks c) = true -> pending c <> []) ->
  isLoading (hooks (fst (Frontend.step env c e))) = true ->
  pending (fst (Frontend.step env c e)) <> [].
Proof.
  intros Hinv Hc. destruct e as [|i r now|].
  - destruct (timer c) as [p|] eqn:Hp.
    + rewrite (Frontend_tick_step env c Hinv) by (rewrite Hp; discriminate).
      cbv zeta. destruct (mounted c && _); cbn [fst pending];
        intros _ H; apply app_eq_nil in H; destruct H; discriminate.
    + unfold Frontend.step. rewrite Hp. exact Hc.
  - destruct (Frontend.ends c (Settle i r now)) as [o|] eqn:He.
    + pose proof (Frontend_step_ends env _ _ _ Hinv He) as H.
      destruct o as [data t|err].
      * destruct H as (_ & H & _). rewrite H. discriminate.
      * rewrite H. discriminate.
    + destruct (Nat.lt_ge_cases i (List.length (pending c))) as [Hi|Hi];
        [rewrite (Frontend_ends_valid c i r now Hi) in He; discriminate|].
      rewrite (Frontend_settle_none env c i r now Hi). exact Hc.
  - unfold Frontend.step, unmount. destruct (mounted c); exact Hc.
Qed.

(** X3.  In both revisions, after any sequence of events, [isLoading] is true
    only while at least one request of the component is pending. *)
Theorem loading_only_while_pending (env : option string) (es : list event) :
  (isLoading (hooks (Part000.exec (fst (Part000.mount env)) es)) = true ->
   pending (Part000.exec (fst (Part000.mount env)) es) <> []) /\
  (isLoading (hooks (Frontend.exec env (fst (Frontend.mount env)) es)) = true ->
   pending (Frontend.exec env (fst (Frontend.mount env)) es) <> []).
Proof.
  split.
  - assert (G : forall es c, Part000_inv env c ->
                (isLoading (hooks c) = true -> pending c <> []) ->
                isLoading (hooks (Part000.exec c es)) = true ->
                pending (Part000.exec c es) <> []).
    { clear es. induction es as [|e es IH]; intros c Hinv Hc; simpl;
        [exact Hc|].
      apply IH; [now apply Part000_step_inv|].
      now apply (Part000_step_loading env). }
    apply G; [apply Part000_mount_inv|].
    destruct env as [[|a base]|]; simpl; discriminate.
  - assert (G : forall es c, Frontend_inv env c ->
                (isLoading (hooks c) = true -> pending c <> []) ->
                isLoading (hooks (Frontend.exec env c es)) = true ->
                pending (Frontend.exec env c es) <> []).
    { clear es. induction es as [|e es IH]; intros c Hinv Hc; simpl;
        [exact Hc|].
      apply IH; [now apply Frontend_step_inv|].
      now apply Frontend_step_loading. }
    apply G; [apply Frontend_mount_inv|].
    simpl. discriminate.
Qed.

(** The first cycle is still pending when the timer starts a second one. *)
Lemma loading_only_while_pending_witness :
  pending (Part000.exec (fst (Part000.mount (Some "http://api.test"))) [Tick])
    <> [] /\
  pending (Frontend.exec None (fst (Frontend.mount None)) [Tick]) <> [].
Proof.
  split.
  - apply (proj1 (loading_only_while_pending (Some "http://api.test") [Tick])).
    reflexivity.
  - apply (proj2 (loading_only_while_pending None [Tick])). reflexivity.
Defined.

(** ** The success path and the error message *)

(** X4.  The success path never touches the error message.  In
    [unnamed/part_000] an event that ends a cycle in success leaves [error]
    as it was, so the message of an overlapping cycle that failed meanwhile
    stays after the success.  In [frontend/src/components/TrendingPosts.js]
    the same holds when the component is unmounted or the render of the new
    state throws; when the component is mounted and that render succeeds, the
    effect runs again and the cycle it starts clears the message. *)
Theorem success_leaves_error
  (env : option string) (es : list event) (e : event)
  (data : value) (t : Date) :
  (let c := Part000.exec (fst (Part000.mount env)) es in
   Part000.ends c e = Some (Succeeded data t) ->
   error (hooks (fst (Part000.step c e))) = error (hooks c)) /\
  (let c := Frontend.exec env (fst (Frontend.mount env)) es in
   Frontend.ends c e = Some (Succeeded data t) ->
   error (hooks (fst (Frontend.step env c e))) =
   if mounted c
      && negb (Frontend.throws (mkState data false (error (hooks c)) (Some t)))
   then VStr EmptyString
   else error (hooks c)).
Proof.
  split; cbn zeta; intros He.
  - rewrite (Part000_step_ends env _ _ _ (Part000_reached_inv env es) He).
    reflexivity.
  - pose proof (Frontend_reached_inv env es) as Hinv.
    set (c := Frontend.exec env (fst (Frontend.mount env)) es) in *.
    destruct e as [|i r now|]; try discriminate.
    destruct (Nat.lt_ge_cases i (List.length (pending c))) as [Hi|Hi];
      [|rewrite (Frontend_ends_none c i r now Hi) in He; discriminate].
    rewrite (Frontend_ends_valid c i r now Hi) in He.
    destruct r as [d|err]; [|discriminate].
    inversion He; subst d t.
    rewrite (Frontend_settle_step env c i _ now Hinv Hi). cbv zeta.
    rewrite Frontend_resume_run. cbn [Frontend.verdict].
    destruct (mounted c); [|reflexivity].
    destruct (Frontend.throws (mkState data false (error (hooks c)) (Some now)));
      [reflexivity|].
    destruct (Frontend.throws
                (mkState data false (VStr EmptyString) (Some now)));
      reflexivity.
Qed.

(** Two overlapping cycles of [unnamed/part_000]: the first is rejected with
    "Network Error", then the second succeeds; the message stays. *)
Lemma success_leaves_error_witness :
  let c := Part000.exec (fst (Part000.mount (Some "http://api.test")))
             [Tick; Settle 0 (Rejected (mkExn "Network Error" None)) 1000%Z] in
  error (hooks (fst (Part000.step c (Settle 0 (Fulfilled (VArr [])) 2000%Z))))
  = error (hooks c) /\
  error (hooks c) = VStr "Network Error".
Proof.
  intros c. split; [|reflexivity].
  apply (proj1 (success_leaves_error (Some "http://api.test")
                  [Tick; Settle 0 (Rejected (mkExn "Network Error" None)) 1000%Z]
                  (Settle 0 (Fulfilled (VArr [])) 2000%Z) (VArr []) 2000%Z)).
  reflexivity.
Defined.

(** ** How many requests are issued *)

Lemma Part000_started_requests (env : option string) :
  count is_request (started (Part000.fetchTrends env)) =
  if configured env then 1 else 0.
Proof. destruct env as [[|a base]|]; reflexivity. Qed.

Lemma Part000_transcript_requests env (es : list event) : forall c,
  Part000_inv env c ->
  count is_request (Part000_transcript c es) =
  if timer_active c && configured env
  then count is_tick (before_unmount es)
  else 0.
Proof.
  induction es as [|e es IH]; intros c Hinv.
  - simpl. destruct (timer_active c && configured env); reflexivity.
  - cbn [Part000_transcript]. rewrite count_app.
    rewrite (IH _ (Part000_step_inv env c e Hinv)).
    destruct Hinv as (Hs & Ht & Hm). unfold timer_active.
    destruct e as [|i r now|]; cbn [Part000.step before_unmount].
    + destruct (timer c) as [p|] eqn:Hp.
      * destruct Ht as [Ht|Ht]; [discriminate|]. inversion Ht; subst p.
        unfold invoke; cbn [fst snd timer]. rewrite Hp.
        rewrite Part000_started_requests.
        destruct (configured env); reflexivity.
      * cbn [fst snd]. rewrite Hp. reflexivity.
    + unfold settle. destruct (nth_error (pending c) i) as [k|] eqn:Hk.
      * apply (nth_error_Forall _ _ _ _ Hs) in Hk. subst k.
        cbn [fst snd timer].
        rewrite (proj1 (Part000_resume_requests r now)).
        destruct (timer c); destruct (configured env); reflexivity.
      * cbn [fst snd].
        destruct (timer c); destruct (configured env); reflexivity.
    + unfold unmount. destruct (mounted c) eqn:Hmc.
      * cbn [fst snd timer]. simpl.
        destruct (timer c); destruct (configured env); reflexivity.
      * cbn [fst snd]. rewrite (Hm eq_refl). reflexivity.
Qed.

(** X5.  In [unnamed/part_000] the component issues one request at mount and
    one per timer tick until it is unmounted, and none otherwise: a failure
    is not retried before the next tick, nothing is requested after the
    unmount, and with the configuration missing nothing is ever requested. *)
Theorem Part000_request_count (env : option string) (es : list event) :
  count is_request (Part000_session env es) =
  if configured env then 1 + count is_tick (before_unmount es) else 0.
Proof.
  unfold Part000_session. rewrite count_app.
  rewrite (Part000_transcript_requests env es _ (Part000_mount_inv env)).
  destruct env as [[|a base]|]; reflexivity.
Qed.

(** ** The effect of [frontend/src/components/TrendingPosts.js] runs again
       after a success *)

(** X6.  In [frontend/src/components/TrendingPosts.js], when a request of the
    mounted component is fulfilled, the completion handler is followed by a
    render.  If that render throws, the component is unmounted and only
    [clearInterval] follows.  If it succeeds, the cleanup and a new run of
    the effect follow at once: the interval is cancelled, a new cycle
    requests the endpoint again without waiting for a tick, and a new
    interval is registered (and cancelled again if the render after the new
    cycle's [setError('')] throws).  A rejected request is followed by no
    request. *)
Theorem Frontend_success_refetches
  (env : option string) (es : list event)
  (i : nat) (data : value) (err : exn) (now : Date) :
  let c := Frontend.exec env (fst (Frontend.mount env)) es in
  mounted c = true ->
  i < List.length (pending c) ->
  snd (Frontend.step env c (Settle i (Fulfilled data) now)) =
    [setTrends data; setLastUpdated now; setIsLoading false]
    ++ (if Frontend.throws (mkState data false (error (hooks c)) (Some now))
        then [clearInterval]
        else [clearInterval;
              setError (VStr EmptyString);
              axios_get (Frontend.apiBase env ++ "/api/trending")%string;
              setInterval 300000]
             ++ (if Frontend.throws
                      (mkState data false (VStr EmptyString) (Some now))
                 then [clearInterval]
                 else [])) /\
  count is_request (snd (Frontend.step env c (Settle i (Rejected err) now))) = 0.
Proof.
  cbn zeta. intros Hm Hi.
  rewrite !(Frontend_settle_step env _ i _ now (Frontend_reached_inv env es) Hi).
  cbv zeta. rewrite Hm, !Frontend_resume_run. cbn [Frontend.verdict]. split.
  - destruct (Frontend.throws _); [reflexivity|].
    destruct (Frontend.throws _); reflexivity.
  - destruct (Frontend.throws _); reflexivity.
Qed.

(** The first request of the component is fulfilled with an empty list. *)
Lemma Frontend_success_refetches_witness :
  snd (Frontend.step None (fst (Frontend.mount None))
         (Settle 0 (Fulfilled (VArr [])) 1000%Z)) =
    [setTrends (VArr []); setLastUpdated 1000%Z; setIsLoading false;
     clearInterval;
     setError (VStr EmptyString);
     axios_get "http://127.0.0.1:5001/api/trending";
     setInterval 300000].
Proof.
  apply (Frontend_success_refetches None [] 0 (VArr [])
           (mkExn "Network Error" None) 1000%Z); [reflexivity | simpl; lia].
Defined.

Lemma Frontend_step_alive env c e :
  Frontend_inv env c ->
  (mounted c = true -> timer c <> None) ->
  mounted (fst (Frontend.step env c e)) = true ->
  timer (fst (Frontend.step env c e)) <> None.
Proof.
  intros Hinv Ha. destruct e as [|i r now|].
  - destruct (timer c) as [p|] eqn:Hp.
    + rewrite (Frontend_tick_step env c Hinv) by (rewrite Hp; discriminate).
      cbv zeta. destruct (mounted c && _); cbn [fst mounted timer];
        [discriminate | rewrite Hp; discriminate].
    + unfold Frontend.step. rewrite Hp. cbn [fst]. rewrite Hp. exact Ha.
  - destruct (Nat.lt_ge_cases i (List.length (pending c))) as [Hi|Hi].
    + rewrite (Frontend_settle_step env c i r now Hinv Hi). cbv zeta.
      destruct (mounted c) eqn:Hm; [|cbn [fst mounted]; discriminate].
      destruct (Frontend.throws _); [cbn [fst mounted]; discriminate|].
      destruct r as [data|err]; [destruct (Frontend.throws _)|];
        cbn [fst mounted timer]; try discriminate; auto.
    + rewrite (Frontend_settle_none env c i r now Hi). exact Ha.
  - unfold Frontend.step, unmount. destruct (mounted c) eqn:Hm; simpl;
      [discriminate | rewrite Hm; discriminate].
Qed.

(** ** Every request comes from the effect or from a tick *)

Lemma Frontend_step_requests env c e :
  Frontend_inv env c ->
  count is_request (snd (Frontend.step env c e)) =
  count is_setInterval (snd (Frontend.step env c e))
  + (if is_tick e && timer_active c then 1 else 0).
Proof.
  intros Hinv. unfold timer_active. destruct e as [|i r now|].
  - destruct (timer c) as [p|] eqn:Hp.
    + rewrite (Frontend_tick_step env c Hinv) by (rewrite Hp; discriminate).
      cbv zeta.
      destruct (mounted c && _); destruct (lastUpdated (hooks c)); reflexivity.
    + unfold Frontend.step. rewrite Hp. reflexivity.
  - destruct (Nat.lt_ge_cases i (List.length (pending c))) as [Hi|Hi].
    + rewrite (Frontend_settle_step env c i r now Hinv Hi). cbv zeta.
      destruct (mounted c); [|destruct r; reflexivity].
      destruct (Frontend.throws _); [destruct r; reflexivity|].
      destruct r as [data|err]; [destruct (Frontend.throws _)|]; reflexivity.
    + rewrite (Frontend_settle_none env c i r now Hi). reflexivity.
  - unfold Frontend.step, unmount. destruct (mounted c); reflexivity.
Qed.

(** X7.  In [frontend/src/components/TrendingPosts.js] every request is issued
    either by a tick of the active interval or by a run of the effect, which
    registers one interval each time it runs (at mount, and again after each
    success that is rendered): the number of requests is the number of
    intervals registered plus the number of ticks of an active interval. *)
Theorem Frontend_request_count (env : option string) (es : list event) :
  count is_request (Frontend_session env es) =
  count is_setInterval (Frontend_session env es)
  + live_ticks (Frontend.step env) (fst (Frontend.mount env)) es.
Proof.
  unfold Frontend_session. rewrite !count_app.
  change (count is_request (snd (Frontend.mount env))) with 1.
  change (count is_setInterval (snd (Frontend.mount env))) with 1.
  assert (G : forall es c, Frontend_inv env c ->
                count is_request (Frontend_transcript env c es) =
                count is_setInterval (Frontend_transcript env c es)
                + live_ticks (Frontend.step env) c es).
  { clear es. induction es as [|e es IH]; intros c Hinv; [reflexivity|].
    cbn [Frontend_transcript live_ticks]. rewrite !count_app.
    rewrite (Frontend_step_requests env c e Hinv).
    rewrite (IH _ (Frontend_step_inv env c e Hinv)). lia. }
  rewrite (G es _ (Frontend_mount_inv env)). lia.
Qed.

(** ** One endpoint, one period *)

Lemma Part000_step_targets a base c e :
  Part000_inv (Some (String a base)) c ->
  Forall (targets (String a base ++ "/api/trending")%string)
         (snd (Part000.step c e)).
Proof.
  intros (Hs & Ht & Hm). destruct e as [|i r now|]; simpl.
  - destruct (timer c) as [p|] eqn:Hp; [|constructor].
    destruct Ht as [Ht|Ht]; [discriminate|]. inversion Ht; subst p.
    simpl. repeat constructor.
  - unfold settle. destruct (nth_error (pending c) i) as [k|] eqn:Hk;
      [|constructor].
    apply (nth_error_Forall _ _ _ _ Hs) in Hk. subst k.
    destruct r as [data|err]; simpl; [destruct (isArray data); simpl|];
      repeat constructor.
  - unfold unmount. destruct (mounted c); simpl; repeat constructor.
Qed.

Lemma Frontend_step_targets env c e :
  Frontend_inv env c ->
  Forall (targets (Frontend.apiBase env ++ "/api/trending")%string)
         (snd (Frontend.step env c e)).
Proof.
  intros Hinv. destruct e as [|i r now|].
  - destruct (timer c) as [p|] eqn:Hp.
    + rewrite (Frontend_tick_step env c Hinv) by (rewrite Hp; discriminate).
      cbv zeta.
      destruct (mounted c && _); destruct (lastUpdated (hooks c)); simpl;
        repeat constructor.
    + unfold Frontend.step. rewrite Hp. constructor.
  - destruct (Nat.lt_ge_cases i (List.length (pending c))) as [Hi|Hi].
    + rewrite (Frontend_settle_step env c i r now Hinv Hi). cbv zeta.
      destruct (mounted c); [|destruct r; simpl; repeat constructor].
      destruct (Frontend.throws _); [destruct r; simpl; repeat constructor|].
      destruct r as [data|err]; [destruct (Frontend.throws _)|]; simpl;
        repeat constructor.
    + rewrite (Frontend_settle_none env c i r now Hi). constructor.
  - unfold Frontend.step, unmount. destruct (mounted c); simpl;
      repeat constructor.
Qed.

(** X8.  In both revisions every request the component ever issues goes to
    the one URL [<base>/api/trending] (the configured base, or in
    [frontend/src/components/TrendingPosts.js] the default one), and every
    timer it registers has a period of 300000 ms. *)
Theorem single_endpoint_and_period
  (a : ascii) (base : string) (env : option string) (es : list event) :
  Forall (targets (String a base ++ "/api/trending")%string)
         (Part000_session (Some (String a base)) es) /\
  Forall (targets (Frontend.apiBase env ++ "/api/trending")%string)
         (Frontend_session env es).
Proof.
  split.
  - unfold Part000_session. apply Forall_app. split.
    + simpl. repeat constructor.
    + generalize (Part000_mount_inv (Some (String a base))).
      generalize (fst (Part000.mount (Some (String a base)))).
      induction es as [|e es IH]; intros c Hinv; simpl; [constructor|].
      apply Forall_app. split; [now apply Part000_step_targets|].
      apply IH. now apply Part000_step_inv.
  - unfold Frontend_session. apply Forall_app. split.
    + simpl. repeat constructor.
    + generalize (Frontend_mount_inv env).
      generalize (fst (Frontend.mount env)).
      induction es as [|e es IH]; intros c Hinv; simpl; [constructor|].
      apply Forall_app. split; [now apply Frontend_step_targets|].
      apply IH. now apply Frontend_step_inv.
Qed.

(** ** Timers are not leaked *)

Lemma Part000_step_timers env c e :
  Part000_inv env c ->
  count is_setInterval (snd (Part000.step c e))
  + (if mounted c then 1 else 0) =
  count is_clearInterval (snd (Part000.step c e))
  + (if mounted (fst (Part000.step c e)) then 1 else 0).
Proof.
  intros (Hs & Ht & Hm). destruct e as [|i r now|]; simpl.
  - destruct (timer c) as [p|] eqn:Hp; [|reflexivity].
    destruct Ht as [Ht|Ht]; [discriminate|]. inversion Ht; subst p.
    destruct env as [[|a base]|]; reflexivity.
  - unfold settle. destruct (nth_error (pending c) i) as [k|] eqn:Hk;
      [|reflexivity].
    apply (nth_error_Forall _ _ _ _ Hs) in Hk. subst k.
    destruct r as [data|err]; simpl; [destruct (isArray data)|]; reflexivity.
  - unfold unmount. destruct (mounted c) eqn:Hmc; simpl;
      [reflexivity | rewrite Hmc; reflexivity].
Qed.

Lemma Frontend_step_timers env c e :
  Frontend_inv env c ->
  count is_setInterval (snd (Frontend.step env c e))
  + (if mounted c then 1 else 0) =
  count is_clearInterval (snd (Frontend.step env c e))
  + (if mounted (fst (Frontend.step env c e)) then 1 else 0).
Proof.
  intros Hinv. destruct e as [|i r now|].
  - destruct (timer c) as [p|] eqn:Hp.
    + rewrite (Frontend_tick_step env c Hinv) by (rewrite Hp; discriminate).
      cbv zeta.
      destruct (mounted c) eqn:Hmc; cbn [andb];
        [destruct (Frontend.throws _)|];
        destruct (lastUpdated (hooks c)); cbn [fst snd mounted];
        try rewrite Hmc; reflexivity.
    + unfold Frontend.step. rewrite Hp. reflexivity.
  - destruct (Nat.lt_ge_cases i (List.length (pending c))) as [Hi|Hi].
    + rewrite (Frontend_settle_step env c i r now Hinv Hi). cbv zeta.
      destruct (mounted c); [|destruct r; reflexivity].
      destruct (Frontend.throws _); [destruct r; reflexivity|].
      destruct r as [data|err]; [destruct (Frontend.throws _)|]; reflexivity.
    + rewrite (Frontend_settle_none env c i r now Hi). reflexivity.
  - unfold Frontend.step, unmount. destruct (mounted c) eqn:Hmc; simpl;
      [reflexivity | rewrite Hmc; reflexivity].
Qed.

(** X9.  In both revisions the timers registered and the timers cancelled
    balance: while the component is mounted exactly one interval is
    outstanding, and once it is unmounted every interval that was registered
    has been cancelled. *)
Theorem timers_balanced (env : option string) (es : list event) :
  count is_setInterval (Part000_session env es) =
    count is_clearInterval (Part000_session env es)
    + (if mounted (Part000.exec (fst (Part000.mount env)) es) then 1 else 0) /\
  count is_setInterval (Frontend_session env es) =
    count is_clearInterval (Frontend_session env es)
    + (if mounted (Frontend.exec env (fst (Frontend.mount env)) es)
       then 1 else 0).
Proof.
  split.
  - assert (G : forall es c, Part000_inv env c ->
                count is_setInterval (Part000_transcript c es)
                + (if mounted c then 1 else 0) =
                count is_clearInterval (Part000_transcript c es)
                + (if mounted (Part000.exec c es) then 1 else 0)).
    { clear es. induction es as [|e es IH]; intros c Hinv; [reflexivity|].
      cbn [Part000_transcript]. rewrite !count_app.
      pose proof (Part000_step_timers env c e Hinv) as H1.
      pose proof (IH _ (Part000_step_inv env c e Hinv)) as H2.
      change (Part000.exec c (e :: es))
        with (Part000.exec (fst (Part000.step c e)) es).
      lia. }
    unfold Part000_session. rewrite !count_app.
    pose proof (G es _ (Part000_mount_inv env)) as H.
    assert (H1 : count is_setInterval (snd (Part000.mount env)) = 1)
      by (destruct env as [[|a base]|]; reflexivity).
    assert (H2 : count is_clearInterval (snd (Part000.mount env)) = 0)
      by (destruct env as [[|a base]|]; reflexivity).
    assert (H3 : mounted (fst (Part000.mount env)) = true)
      by (destruct env as [[|a base]|]; reflexivity).
    rewrite H3 in H. lia.
  - assert (G : forall es c, Frontend_inv env c ->
                count is_setInterval (Frontend_transcript env c es)
                + (if mounted c then 1 else 0) =
                count is_clearInterval (Frontend_transcript env c es)
                + (if mounted (Frontend.exec env c es) then 1 else 0)).
    { clear es. induction es as [|e es IH]; intros c Hinv; [reflexivity|].
      cbn [Frontend_transcript]. rewrite !count_app.
      pose proof (Frontend_step_timers env c e Hinv) as H1.
      pose proof (IH _ (Frontend_step_inv env c e Hinv)) as H2.
      change (Frontend.exec env c (e :: es))
        with (Frontend.exec env (fst (Frontend.step env c e)) es).
      lia. }
    unfold Frontend_session. rewrite !count_app.
    pose proof (G es _ (Frontend_mount_inv env)) as H.
    change (mounted (fst (Frontend.mount env))) with true in H.
    cbv iota in H.
    change (count is_setInterval (snd (Frontend.mount env))) with 1.
    change (count is_clearInterval (snd (Frontend.mount env))) with 0.
    lia.
Qed.

(** ** A missing configuration is a persistent error *)

(** X10.  In [unnamed/part_000], when [REACT_APP_BACKEND_URL] is unset or
    empty, the component stays in the same error state whatever happens after
    mount: every tick fails again at once, no request is ever pending, and
    each render shows the header and the message "REACT_APP_BACKEND_URL not
    set in .env". *)
Theorem Part000_unconfigured_forever
  (toLocaleTimeString : Date -> string) (Number_toString : number -> string)
  (env : option string) (es : list event) :
  configured env = false ->
  let c := Part000.exec (fst (Part000.mount env)) es in
  hooks c = mkState (VArr []) false
                    (VStr "REACT_APP_BACKEND_URL not set in .env") None /\
  pending c = [] /\
  Part000.TrendingPosts toLocaleTimeString Number_toString (hooks c) =
    Some (error_view
            (Elem "div" [Elem "h2" [Text "Live Posts from X"]; Expr VNull])
            (VStr "REACT_APP_BACKEND_URL not set in .env")).
Proof.
  intros Hc. cbn zeta.
  assert (G : forall es c,
             Part000_inv env c ->
             hooks c = mkState (VArr []) false
                         (VStr "REACT_APP_BACKEND_URL not set in .env") None ->
             pending c = [] ->
             hooks (Part000.exec c es)
             = mkState (VArr []) false
                 (VStr "REACT_APP_BACKEND_URL not set in .env") None /\
             pending (Part000.exec c es) = []).
  { clear es. induction es as [|e es IH]; intros c Hinv Hh Hp; [auto|].
    simpl. apply IH; [now apply Part000_step_inv | |];
      destruct Hinv as (Hs & Ht & Hm); destruct e as [|i r now|]; simpl.
    - destruct (timer c) as [p|] eqn:Htc; [|assumption].
      destruct Ht as [Ht|Ht]; [discriminate|]. inversion Ht; subst p.
      simpl. rewrite Hh. destruct env as [[|a base]|]; try discriminate;
        reflexivity.
    - unfold settle. rewrite Hp. destruct i; simpl; assumption.
    - unfold unmount. destruct (mounted c); assumption.
    - destruct (timer c) as [p|] eqn:Htc; [|assumption].
      destruct Ht as [Ht|Ht]; [discriminate|]. inversion Ht; subst p.
      simpl. rewrite Hp. destruct env as [[|a base]|]; try discriminate;
        reflexivity.
    - unfold settle. rewrite Hp. destruct i; simpl; assumption.
    - unfold unmount. destruct (mounted c); assumption. }
  destruct (G es _ (Part000_mount_inv env)) as [Hh Hp];
    try (destruct env as [[|a base]|]; try discriminate; reflexivity).
  rewrite Hh. repeat split. assumption.
Qed.

(** The variable is defined but empty; two ticks, and a stray settlement. *)
Lemma Part000_unconfigured_forever_witness :
  pending (Part000.exec (fst (Part000.mount (Some EmptyString)))
             [Tick; Settle 0 (Fulfilled (VArr [])) 1000%Z; Tick]) = [].
Proof.
  apply (Part000_unconfigured_forever (fun _ => "10:00:00") (fun _ => "NaN")
           (Some EmptyString)
           [Tick; Settle 0 (Fulfilled (VArr [])) 1000%Z; Tick]).
  reflexivity.
Defined.

(** ** What a refresh shows *)

Lemma Part000_reached_timer env es :
  let c := Part000.exec (fst (Part000.mount env)) es in
  mounted c = true -> timer c = Some (Part000.fetchTrends env).
Proof.
  cbn zeta.
  assert (G : forall es c,
             Part000_inv env c ->
             (mounted c = true -> timer c <> None) ->
             mounted (Part000.exec c es) = true ->
             timer (Part000.exec c es) <> None).
  { clear es. induction es as [|e es IH]; intros c Hinv Ha; [exact Ha|].
    simpl. apply IH; [now apply Part000_step_inv|].
    destruct e as [|i r now|]; simpl.
    - destruct (timer c) as [p|] eqn:Hp; simpl; rewrite Hp;
        [discriminate | exact Ha].
    - unfold settle. destruct (nth_error (pending c) i); exact Ha.
    - unfold unmount. destruct (mounted c) eqn:Hm; simpl;
        [discriminate | rewrite Hm; discriminate]. }
  intros Hm.
  destruct (Part000_reached_inv env es) as (_ & [Ht|Ht] & _); [|exact Ht].
  exfalso. revert Ht. apply G; [apply Part000_mount_inv | | exact Hm].
  destruct env as [[|a base]|]; simpl; discriminate.
Qed.

Lemma Frontend_reached_timer env es :
  let c := Frontend.exec env (fst (Frontend.mount env)) es in
  mounted c = true ->
  timer c = Some (Frontend.fetchTrends (lastUpdated (hooks c)) env).
Proof.
  cbn zeta.
  assert (G : forall es c,
             Frontend_inv env c ->
             (mounted c = true -> timer c <> None) ->
             mounted (Frontend.exec env c es) = true ->
             timer (Frontend.exec env c es) <> None).
  { clear es. induction es as [|e es IH]; intros c Hinv Ha; [exact Ha|].
    simpl. apply IH; [now apply Frontend_step_inv|].
    now apply Frontend_step_alive. }
  intros Hm.
  destruct (Frontend_reached_inv env es) as (_ & [Ht|Ht] & _); [|exact Ht].
  exfalso. revert Ht. apply G; [apply Frontend_mount_inv | | exact Hm].
  simpl. discriminate.
Qed.

(** While [frontend/src/components/TrendingPosts.js] is mounted, its items
    can be rendered: a success whose payload cannot has unmounted it. *)
Lemma Frontend_reached_items env es :
  let c := Frontend.exec env (fst (Frontend.mount env)) es in
  mounted c = true ->
  Frontend.throws (mkState (trends (hooks c)) false (VStr EmptyString)
                           (lastUpdated (hooks c))) = false.
Proof.
  cbn zeta.
  assert (G : forall es c,
             Frontend_inv env c ->
             (mounted c = true ->
              Frontend.throws (mkState (trends (hooks c)) false
                                 (VStr EmptyString) (lastUpdated (hooks c)))
              = false) ->
             mounted (Frontend.exec env c es) = true ->
             Frontend.throws
               (mkState (trends (hooks (Frontend.exec env c es))) false
                  (VStr EmptyString)
                  (lastUpdated (hooks (Frontend.exec env c es)))) = false).
  { clear es. induction es as [|e es IH]; intros c Hinv Hj; [exact Hj|].
    simpl. apply IH; [now apply Frontend_step_inv|]. clear IH.
    destruct e as [|i r now|].
    - destruct (timer c) as [p|] eqn:Hp.
      + rewrite (Frontend_tick_step env c Hinv) by (rewrite Hp; discriminate).
        cbv zeta. rewrite Frontend_started_run.
        destruct (mounted c && _);
          cbn [fst hooks mounted trends lastUpdated];
          [discriminate | exact Hj].
      + unfold Frontend.step. rewrite Hp. exact Hj.
    - destruct (Nat.lt_ge_cases i (List.length (pending c))) as [Hi|Hi].
      + rewrite (Frontend_settle_step env c i r now Hinv Hi). cbv zeta.
        destruct (mounted c) eqn:Hmc; [|cbn [fst mounted]; discriminate].
        destruct (Frontend.throws (run (hooks c) (Frontend.resume r now)));
          [cbn [fst mounted]; discriminate|].
        destruct r as [data|err].
        * destruct (Frontend.throws
                      (mkState data false (VStr EmptyString) (Some now)))
            eqn:Ht2; cbn [fst hooks mounted trends lastUpdated];
            [discriminate | intros _; exact Ht2].
        * cbn [fst hooks mounted]. rewrite Frontend_resume_run.
          cbn [Frontend.verdict trends lastUpdated]. intros _. now apply Hj.
      + rewrite (Frontend_settle_none env c i r now Hi). exact Hj.
    - unfold Frontend.step, unmount. destruct (mounted c) eqn:Hmc;
        cbn [fst mounted]; [discriminate | rewrite Hmc; discriminate]. }
  apply G; [apply Frontend_mount_inv|]. reflexivity.
Qed.

(** X11.  What the user sees when the timer starts a refresh over displayed
    items.  In [unnamed/part_000] (configuration set) the list is replaced
    by "Loading posts..." until the request settles.  In
    [frontend/src/components/TrendingPosts.js], once a fetch has succeeded
    and no cycle is loading, the list of the last success stays on screen
    during the refresh. *)
Theorem refresh_view
  (toLocaleTimeString : Date -> string) (Number_toString : number -> string)
  (env : option string) (es : list event) (vs : list value) (t : Date) :
  (let c := Part000.exec (fst (Part000.mount env)) es in
   configured env = true -> mounted c = true ->
   Part000.TrendingPosts toLocaleTimeString Number_toString
     (hooks (fst (Part000.step c Tick))) =
   Some (loading_view (Part000.header toLocaleTimeString (hooks c)))) /\
  (let c := Frontend.exec env (fst (Frontend.mount env)) es in
   mounted c = true ->
   latest (Frontend.history env es) = Some (VArr vs, t) ->
   isLoading (hooks c) = false ->
   Frontend.TrendingPosts toLocaleTimeString
     (hooks (fst (Frontend.step env c Tick))) =
   Some (Elem "div"
           [Frontend.header toLocaleTimeString (hooks c);
            Elem "ul" (map (fun trend => Elem "li" [Expr trend]) vs)])).
Proof.
  split; cbn zeta.
  - intros Hc Hm. unfold Part000.step.
    rewrite (Part000_reached_timer env es Hm).
    unfold invoke; cbn [fst hooks]. rewrite Part000_started_run.
    destruct env as [[|a base]|]; try discriminate.
    cbn [Part000.finished Part000.fetchTrends].
    rewrite Part000_TrendingPosts_body. unfold Part000.header. reflexivity.
  - intros Hm Hl Hload.
    pose proof (Frontend_reached_items env es Hm) as Hj.
    pose proof (Frontend_reached_timer env es Hm) as Htm.
    destruct (Frontend_reached_latest env es) as [Ht Hu].
    rewrite Hl in Ht, Hu. cbn [option_map snd] in Hu.
    set (c := Frontend.exec env (fst (Frontend.mount env)) es) in *.
    assert (Hh : hooks (fst (Frontend.step env c Tick))
                 = mkState (VArr vs) false (VStr EmptyString) (Some t)).
    { rewrite (Frontend_tick_step env c (Frontend_reached_inv env es))
        by (rewrite Htm; discriminate).
      cbv zeta. rewrite Frontend_started_run, Hu, Ht, Hload.
      destruct (mounted c && _); reflexivity. }
    rewrite Hh. rewrite Ht, Hu in Hj.
    unfold Frontend.TrendingPosts. rewrite Hj.
    unfold Frontend.header. rewrite Hu. reflexivity.
Qed.

(** A first cycle that succeeded with one item, then the tick. *)
Lemma refresh_view_witness :
  let es := [Settle 0 (Fulfilled (VArr [VStr "#rocq is trending"])) 1000%Z] in
  Part000.TrendingPosts (fun _ => "10:00:00") (fun _ => "NaN")
    (hooks (fst (Part000.step
       (Part000.exec (fst (Part000.mount (Some "http://api.test"))) es) Tick)))
  = Some (loading_view
            (Elem "div" [Elem "h2" [Text "Live Posts from X"];
                         Elem "span" [Text "Updated at: ";
                                      Expr (VStr "10:00:00")]])) /\
  Frontend.TrendingPosts (fun _ => "10:00:00")
    (hooks (fst (Frontend.step (Some "http://api.test")
       (Frontend.exec (Some "http://api.test")
          (fst (Frontend.mount (Some "http://api.test"))) es) Tick)))
  = Some (Elem "div"
            [Elem "div" [Elem "h2" [Text "Live Posts from X"];
                         Elem "span" [Text "Updated at: ";
                                      Expr (VStr "10:00:00")]];
             Elem "ul" [Elem "li" [Expr (VStr "#rocq is trending")]]]).
Proof.
  intros es.
  destruct (refresh_view (fun _ => "10:00:00") (fun _ => "NaN")
              (Some "http://api.test") es [VStr "#rocq is trending"] 1000%Z)
    as [HP HF].
  split; [apply HP; reflexivity | apply HF; reflexivity].
Defined.

(** ** When the render throws *)

Lemma map_or_throw_None {A B : Type} (f : A -> option B) (l : list A) :
  map_or_throw f l = None <-> exists x, In x l /\ f x = None.
Proof.
  induction l as [|x l IH]; simpl.
  - split; [discriminate | intros (x & [] & _)].
  - destruct (f x) as [y|] eqn:Hx.
    + destruct (map_or_throw f l) as [ys|].
      * split; [discriminate|].
        intros (z & [Hz|Hz] & Hf); [congruence|].
        assert (Hn : Some ys = None) by (apply IH; exists z; auto).
        discriminate.
      * split; [|reflexivity]. intros _.
        destruct (proj1 IH eq_refl) as (z & Hz & Hf). exists z. auto.
    + split; [|reflexivity]. intros _. exists x. auto.
Qed.

(** The entry of a value is rendered exactly when the value is not
    [unrenderable]. *)
Lemma Part000_post_renders (Number_toString : number -> string) (v : value) :
  match Part000.post Number_toString v with
  | Some li => renderable li
  | None => false
  end = negb (unrenderable v).
Proof.
  unfold Part000.post, unrenderable.
  destruct (member v "sentiment") as [se|]; [|reflexivity].
  destruct (member v "text") as [te|]; [|reflexivity].
  destruct (member v "score") as [sc|]; [|reflexivity].
  destruct sc as [| | |n| | |]; cbn [Part000.score_text];
    rewrite ?orb_true_r; try reflexivity;
    cbn [renderable forallb valid_child];
    destruct (valid_child se), (valid_child te); reflexivity.
Qed.

Lemma Part000_posts_render (Number_toString : number -> string)
  (vs : list value) :
  match map_or_throw (Part000.post Number_toString) vs with
  | Some lis => forallb renderable lis
  | None => false
  end = negb (existsb unrenderable vs).
Proof.
  induction vs as [|v vs IH]; [reflexivity|].
  cbn [map_or_throw existsb].
  pose proof (Part000_post_renders Number_toString v) as Hv.
  destruct (Part000.post Number_toString v) as [li|].
  - destruct (map_or_throw (Part000.post Number_toString) vs) as [lis|].
    + cbn [forallb]. rewrite Hv, IH, negb_orb. reflexivity.
    + rewrite negb_orb, <- IH, andb_false_r. reflexivity.
  - rewrite negb_orb, <- Hv. reflexivity.
Qed.

(** X12.  When the component is neither loading nor in error and its items
    are an array, the render of [unnamed/part_000] throws exactly when some
    element is [null] or [undefined], or has a [score] that is neither a
    number nor [null] nor [undefined] (the call of [toFixed] fails), or has a
    [sentiment] or [text] that React refuses as a child (an object); the
    render of [frontend/src/components/TrendingPosts.js] throws exactly when
    some element is not a valid child, as every object is. *)
Theorem render_throws_on_malformed_item
  (toLocaleTimeString : Date -> string) (Number_toString : number -> string)
  (s : state) (vs : list value) :
  isLoading s = false -> truthy (error s) = false -> trends s = VArr vs ->
  (Part000.TrendingPosts toLocaleTimeString Number_toString s = None <->
   existsb unrenderable vs = true) /\
  (Frontend.TrendingPosts toLocaleTimeString s = None <->
   forallb valid_child vs = false).
Proof.
  intros Hl He Ht. split.
  - rewrite Part000_TrendingPosts_body. unfold Part000.body.
    rewrite Hl, He, Ht.
    destruct vs as [|v vs]; [simpl; split; discriminate|].
    cbn [Part000.length_is_zero List.length Nat.eqb].
    pose proof (Part000_posts_render Number_toString (v :: vs)) as H.
    destruct (map_or_throw (Part000.post Number_toString) (v :: vs))
      as [lis|]; cbn [option_map].
    + change (renderable (Elem "ul" lis)) with (forallb renderable lis).
      rewrite H.
      destruct (existsb unrenderable (v :: vs)); simpl;
        split; congruence.
    + destruct (existsb unrenderable (v :: vs)); simpl in H;
        split; congruence.
  - rewrite (Frontend_TrendingPosts_list toLocaleTimeString s vs Hl He Ht).
    destruct (forallb valid_child vs); split; congruence.
Qed.

(** One item carries its score as a string. *)
Lemma render_throws_on_malformed_item_witness :
  Part000.TrendingPosts (fun _ => "10:00:00") (fun _ => "NaN")
    (mkState (VArr [VObj [("text", VStr "hello");
                          ("sentiment", VStr "positive");
                          ("score", VStr "0.87")]])
             false (VStr EmptyString) (Some 1000%Z)) = None.
Proof.
  apply (proj1 (render_throws_on_malformed_item (fun _ => "10:00:00")
                  (fun _ => "NaN")
                  (mkState (VArr [VObj [("text", VStr "hello");
                                        ("sentiment", VStr "positive");
                                        ("score", VStr "0.87")]])
                           false (VStr EmptyString) (Some 1000%Z))
                  [VObj [("text", VStr "hello");
                         ("sentiment", VStr "positive");
                         ("score", VStr "0.87")]]
                  eq_refl eq_refl eq_refl)).
  reflexivity.
Defined.

(** ** The last completion wins *)

(** X13.  In both revisions, after any sequence of events, with cycles
    overlapping and settling in any order, the items are the payload of the
    successful cycle that completed last (not of the one that was started
    last), and the initial empty array while no cycle has succeeded. *)
Theorem last_completion_wins (env : option string) (es : list event) :
  trends (hooks (Part000.exec (fst (Part000.mount env)) es)) =
    match latest (Part000.history env es) with
    | Some (data, _) => data
    | None => VArr []
    end /\
  trends (hooks (Frontend.exec env (fst (Frontend.mount env)) es)) =
    match latest (Frontend.history env es) with
    | Some (data, _) => data
    | None => VArr []
    end.
Proof.
  split.
  - apply Part000_reached_latest.
  - apply Frontend_reached_latest.
Qed.
